(** * neko: the WebRTC manager (server/internal/webrtc/webrtc.go)

    A shallow embedding of [WebRTCManager]: [createTrack], [Start], the
    frame consumers, [CreatePeer], the callbacks it registers on the peer
    connection and the RTCP drain loops it spawns.

    The pion engine, the session registry and the frame producer are
    interfaces of the Go code; they are type classes here.  Every call
    that leaves the package is recorded, in order, in a trace.  The pointer
    to the configuration and the session handed to [CreatePeer] are taken
    not to be nil; a nil track is modelled, and dereferencing it panics. *)

From Stdlib Require Import String Ascii List ZArith Lia Bool Arith.
From Stdlib Require Import DecimalString.
Import ListNotations.

Local Open Scope string_scope.
Local Open Scope list_scope.

(** ** Go values *)

(** A Go [error] that is not nil.  [io.ErrClosedPipe] is a sentinel compared
    by identity; every other error is kept by its message. *)
Inductive error : Type :=
| io_ErrClosedPipe
| errorString (msg : string).

Definition error_eqb (a b : error) : bool :=
  match a, b with
  | io_ErrClosedPipe, io_ErrClosedPipe => true
  | errorString x, errorString y => String.eqb x y
  | _, _ => false
  end.

(** The text of [err.Error()]. *)
Definition Error (e : error) : string :=
  match e with
  | io_ErrClosedPipe => "io: read/write on closed pipe"
  | errorString msg => msg
  end.

(** [fmt.Errorf("unknown codec %s", name)] *)
Definition Errorf_unknown_codec (name : string) : error :=
  errorString (String.append "unknown codec " name).

(** A Go call that returns [(value, error)]. *)
Inductive result (A : Type) : Type :=
| Ok (a : A)
| Err (e : error).
Arguments Ok {A} a.
Arguments Err {A} e.

(** A Go call either returns or panics. *)
Inductive outcome (A : Type) : Type :=
| Returned (a : A)
| Panicked.
Arguments Returned {A} a.
Arguments Panicked {A}.

(** [strings.Contains(hay, needle)] *)
Fixpoint contains (needle hay : string) : bool :=
  String.prefix needle hay ||
  match hay with
  | EmptyString => false
  | String _ rest => contains needle rest
  end.

(** ** pion/webrtc records built by this package *)

Record RTCPFeedback : Type := { fbType : string; fbParameter : string }.

Record RTPCodecCapability : Type := {
  MimeType : string;
  ClockRate : Z;
  Channels : Z;
  SDPFmtpLine : string;
  RTCPFeedbacks : list RTCPFeedback
}.

Record RTPCodecParameters : Type := {
  Capability : RTPCodecCapability;
  PayloadType : Z
}.

(** The zero value of [webrtc.RTPCodecParameters] ([var codec ...]). *)
Definition zeroCodec : RTPCodecParameters :=
  {| Capability := {| MimeType := ""; ClockRate := 0; Channels := 0;
                      SDPFmtpLine := ""; RTCPFeedbacks := [] |};
     PayloadType := 0 |}.

Inductive RTPCodecType : Type := RTPCodecTypeAudio | RTPCodecTypeVideo.

Record ICEServer : Type := {
  URLs : list string;
  Username : string;
  Credential : string
}.

Inductive SDPSemantics : Type :=
| SDPSemanticsUnifiedPlan
| SDPSemanticsPlanB
| SDPSemanticsUnifiedPlanWithFallback.

Record Configuration : Type := {
  ICEServers : list ICEServer;
  Semantics : SDPSemantics
}.

Inductive ICECandidateType : Type :=
| ICECandidateTypeHost | ICECandidateTypeSrflx
| ICECandidateTypePrflx | ICECandidateTypeRelay.

(** [time.Duration], in nanoseconds. *)
Definition time_Second : Z := 1000000000.

(** A [webrtc.SettingEngine] is kept as the setter calls made on it, in
    order; the zero value with the logger factory is the empty list. *)
Inductive Setting : Type :=
| SetLite (lite : bool)
| SetEphemeralUDPPortRange (portMin portMax : Z)
| SetNAT1To1IPs (ips : list string) (candidateType : ICECandidateType)
| SetICETimeouts (disconnected failed keepAlive : Z)
| SetSRTPReplayProtectionWindow (n : Z).

Definition SettingEngine : Type := list Setting.

(** A [webrtc.MediaEngine] is kept as the codecs registered on it. *)
Definition MediaEngine : Type := list (RTPCodecParameters * RTPCodecType).

(** [webrtc.NewAPI(WithMediaEngine, WithSettingEngine, WithInterceptorRegistry)],
    over the engine's type of interceptor registries. *)
Record API (Registry : Type) : Type := {
  apiMediaEngine : MediaEngine;
  apiSettingEngine : SettingEngine;
  apiInterceptorRegistry : Registry
}.
Arguments apiMediaEngine {Registry} _.
Arguments apiSettingEngine {Registry} _.
Arguments apiInterceptorRegistry {Registry} _.

(** The error half of a [(value, error)] result. *)
Definition errorOf {A : Type} (r : result A) : option error :=
  match r with
  | Ok _ => None
  | Err e => Some e
  end.

Record DataChannelInit : Type := { Negotiated : option bool }.

Record SessionDescription : Type := { SDP : string }.

Record ICECandidateInit : Type := {
  Candidate : string;
  SDPMid : option string;
  SDPMLineIndex : option Z;
  UsernameFragment : option string
}.

Inductive PeerConnectionState : Type :=
| PeerConnectionStateNew
| PeerConnectionStateConnecting
| PeerConnectionStateConnected
| PeerConnectionStateDisconnected
| PeerConnectionStateFailed
| PeerConnectionStateClosed.

(** [types.Sample] / [media.Sample] *)
Record Sample : Type := { Data : list Z; Duration : Z }.

(** The three values of [sender.Read(buf)]; the attributes are opaque. *)
Record ReadResult : Type := { readN : Z; readErr : option error }.

(** [config.WebRTC], by the fields this file reads. *)
Record WebRTCConfig : Type := {
  ICELite : bool;
  cfgICEServers : list ICEServer;
  EphemeralMin : Z;
  EphemeralMax : Z;
  NAT1To1IPs : list string
}.

Inductive Level : Type := InfoLevel | WarnLevel | PanicLevel.

(** [fmt.Sprintf("%t", b)] *)
Definition Sprintf_t (b : bool) : string := if b then "true" else "false".

(** [fmt.Sprintf("%d-%d", a, b)] on unsigned values *)
Definition Sprintf_d_d (a b : Z) : string :=
  String.append (NilZero.string_of_uint (N.to_uint (Z.to_N a)))
    (String.append "-" (NilZero.string_of_uint (N.to_uint (Z.to_N b)))).

(** ** The interfaces the package is written against *)

(** pion/webrtc, pion/interceptor, encoding/json and fmt's [%+v]: the
    handles are opaque and each call is an oracle of its arguments.
    [RegisterDefaultInterceptors] receives the engine and the registry by
    pointer and changes both: it answers with what they have become, next
    to its error.  [AddTrack] is asked about tracks that are not nil only.
    [Read] also takes the number of reads already made on that sender. *)
Class Pion : Type := {
  TrackLocalStaticSample : Type;
  PeerConnection : Type;
  RTPSender : Type;
  ICECandidate : Type;
  ICEConnectionState : Type;
  DataChannelMessage : Type;
  InterceptorRegistry : Type;
  emptyRegistry : InterceptorRegistry;
  NewTrackLocalStaticSample :
    RTPCodecCapability -> string -> string -> result TrackLocalStaticSample;
  WriteSample : TrackLocalStaticSample -> Sample -> option error;
  RegisterDefaultInterceptors :
    MediaEngine -> InterceptorRegistry ->
    MediaEngine * InterceptorRegistry * option error;
  NewPeerConnection : API InterceptorRegistry -> Configuration -> result PeerConnection;
  CreateDataChannel : PeerConnection -> string -> DataChannelInit -> option error;
  AddTrack : PeerConnection -> TrackLocalStaticSample -> result RTPSender;
  CreateOffer : PeerConnection -> result SessionDescription;
  SetLocalDescription : PeerConnection -> SessionDescription -> option error;
  Read : RTPSender -> nat -> nat -> ReadResult;
  ICEConnectionState_String : ICEConnectionState -> string;
  Address : ICECandidate -> string;
  ToJSON : ICECandidate -> ICECandidateInit;
  json_Marshal : ICECandidateInit -> result string;
  Sprintf_v : list ICEServer -> string
}.

(** [types.RemoteManager] and the sibling method [manager.handle]. *)
Class Remote {P : Pion} : Type := {
  AudioCodec : string;
  VideoCodec : string;
  handle : string -> DataChannelMessage -> option error
}.

(** ** State passing

    A computation threads the world [W] (the state of the session registry
    and the trace of the calls made so far) and returns a value. *)

Definition M (W A : Type) : Type := W -> A * W.

Definition ret {W A : Type} (a : A) : M W A := fun w => (a, w).

Definition bind {W A B : Type} (m : M W A) (k : A -> M W B) : M W B :=
  fun w => let (a, w') := m w in k a w'.

Declare Scope go_scope.
Delimit Scope go_scope with go.
Notation "x <- m ;; k" := (bind m (fun x => k))
  (at level 100, m at next level, right associativity) : go_scope.
Notation "m ;;; k" := (bind m (fun _ => k))
  (at level 100, right associativity) : go_scope.

Section Model.

Context {P : Pion} {R : Remote}.

(** ** createTrack *)

Definition mkCodec (mime : string) (clock channels : Z) (fmtp : string)
    (fb : list RTCPFeedback) (pt : Z) : RTPCodecParameters :=
  {| Capability := {| MimeType := mime; ClockRate := clock; Channels := channels;
                      SDPFmtpLine := fmtp; RTCPFeedbacks := fb |};
     PayloadType := pt |}.

(** The [switch codecName] of [createTrack]: [None] is the default case. *)
Definition codecByName (codecName : string) : option RTPCodecParameters :=
  let fb : list RTCPFeedback := [] in
  if String.eqb codecName "VP8" then
    Some (mkCodec "video/VP8" 90000 0 "" fb 96)
  else if String.eqb codecName "VP9" then
    Some (mkCodec "video/VP9" 90000 0 "" fb 98)
  else if String.eqb codecName "H264" then
    Some (mkCodec "video/H264" 90000 0
            "level-asymmetry-allowed=1;packetization-mode=1;profile-level-id=42001f"
            fb 102)
  else if String.eqb codecName "Opus" then
    Some (mkCodec "audio/opus" 48000 2 "" fb 111)
  else if String.eqb codecName "G722" then
    Some (mkCodec "audio/G722" 8000 0 "" fb 9)
  else if String.eqb codecName "PCMU" then
    Some (mkCodec "audio/PCMU" 8000 0 "" fb 0)
  else if String.eqb codecName "PCMA" then
    Some (mkCodec "audio/PCMA" 8000 0 "" fb 8)
  else None.

Definition createTrack (codecName : string)
  : option TrackLocalStaticSample * RTPCodecParameters * option error :=
  match codecByName codecName with
  | None => (None, zeroCodec, Some (Errorf_unknown_codec codecName))
  | Some codec =>
      match NewTrackLocalStaticSample (Capability codec) "stream" "stream" with
      | Err err => (None, codec, Some err)
      | Ok track => (Some track, codec, None)
      end
  end.

(** ** The manager and the peers it builds *)

(** [WebRTCManager]: the two track pointers may be nil before [Start]; the
    logger, the registry and the producer are the interfaces above.  The
    manager is one shared object behind a pointer: it lives in the world. *)
Record WebRTCManager : Type := {
  videoTrack : option TrackLocalStaticSample;
  audioTrack : option TrackLocalStaticSample;
  videoCodec : RTPCodecParameters;
  audioCodec : RTPCodecParameters;
  config : WebRTCConfig
}.

(** The pointer every peer keeps to that one manager. *)
Inductive ManagerPtr : Type := managerPtr.

Record Peer : Type := {
  peerId : string;
  peerApi : API InterceptorRegistry;
  peerEngine : MediaEngine;
  peerManager : ManagerPtr;
  peerSettings : SettingEngine;
  peerConnection : PeerConnection;
  peerConfiguration : Configuration
}.

(** [types.SessionManager] and [types.Session]: [Store] is the state of the
    registry with all its sessions, [Session] a handle on one of them, and
    [AttachedPeer] reads the peer a session holds. *)
Class Sessions : Type := {
  Store : Type;
  Session : Type;
  Destroy : string -> Store -> Store * option error;
  SetPeer : Session -> Peer -> Store -> Store * option error;
  SetConnected : Session -> bool -> Store -> Store * option error;
  SignalCandidate : Session -> string -> Store -> Store * option error;
  AttachedPeer : Store -> Session -> option Peer
}.

Context {SM : Sessions}.

(** A reference to the variable [err] of one [CreatePeer] call.  The
    variable is declared with the connection and outlives the call: the
    message closure and the state closure of that call both assign it. *)
Definition ErrVar : Type := nat.

(** The closures [CreatePeer] hands to the connection, by what they capture. *)
Inductive Callback : Type :=
| DataChannelCallback (id : string) (err : ErrVar)
| ICEConnectionStateCallback
| ConnectionStateCallback (id : string) (session : Session) (err : ErrVar)
| ICECandidateCallback (session : Session).

(** One entry per call that leaves the package. *)
Inductive Event : Type :=
| EvLog (level : Level) (fields : list (string * string)) (err : option error)
    (msg : string)
| EvOnAudioFrame
| EvOnVideoFrame
| EvWriteSample (track : TrackLocalStaticSample) (sample : Sample)
| EvRegisterDefaultInterceptors (engine : MediaEngine) (i : InterceptorRegistry)
| EvNewPeerConnection (api : API InterceptorRegistry) (configuration : Configuration)
| EvCreateDataChannel (c : PeerConnection) (label : string) (init : DataChannelInit)
| EvRegister (c : PeerConnection) (cb : Callback)
| EvAddTrack (c : PeerConnection) (track : option TrackLocalStaticSample)
| EvCreateOffer (c : PeerConnection)
| EvSetLocalDescription (c : PeerConnection) (d : SessionDescription)
| EvGo (sender : RTPSender)
| EvRead (sender : RTPSender) (buflen : nat)
| EvHandle (id : string) (msg : DataChannelMessage)
| EvMarshal (init : ICECandidateInit)
| EvDestroy (id : string)
| EvSetPeer (session : Session) (peer : Peer)
| EvSetConnected (session : Session) (connected : bool)
| EvSignalCandidate (session : Session) (payload : string).

(** The world: the manager, the sessions, the trace, and the [err]
    variables of the [CreatePeer] calls so far with what each holds. *)
Record World : Type := {
  manager : WebRTCManager;
  store : Store;
  trace : list Event;
  captured : ErrVar -> option error;
  declared : nat
}.

Definition Go (A : Type) : Type := M World A.

Definition getManager : Go WebRTCManager := fun w => (manager w, w).

Definition setManager (m : WebRTCManager) : Go unit :=
  fun w => (tt, {| manager := m; store := store w; trace := trace w;
                   captured := captured w; declared := declared w |}).

Definition emit (e : Event) : Go unit :=
  fun w => (tt, {| manager := manager w; store := store w;
                   trace := trace w ++ [e];
                   captured := captured w; declared := declared w |}).

(** A call on the registry or on a session: recorded, then run on the store. *)
Definition call (e : Event) (op : Store -> Store * option error)
  : Go (option error) :=
  fun w => let (st, r) := op (store w) in
           (r, {| manager := manager w; store := st; trace := trace w ++ [e];
                  captured := captured w; declared := declared w |}).

(** The variables with [v] now holding [e]. *)
Definition assigned (vars : ErrVar -> option error) (v : ErrVar) (e : option error)
  : ErrVar -> option error :=
  fun x => if Nat.eqb x v then e else vars x.

(** [x, err := ...]: a new variable [err], holding [e]. *)
Definition declareErr (e : option error) : Go ErrVar :=
  fun w => (declared w,
            {| manager := manager w; store := store w; trace := trace w;
               captured := assigned (captured w) (declared w) e;
               declared := S (declared w) |}).

(** [err = ...] *)
Definition storeErr (v : ErrVar) (e : option error) : Go unit :=
  fun w => (tt, {| manager := manager w; store := store w; trace := trace w;
                   captured := assigned (captured w) v e;
                   declared := declared w |}).

(** reading [err] *)
Definition loadErr (v : ErrVar) : Go (option error) :=
  fun w => (captured w v, w).

(** A call on the engine: recorded, its answer read off the oracle. *)
Definition ask {A : Type} (e : Event) (answer : A) : Go A :=
  (emit e ;;; ret answer)%go.

Definition log (level : Level) (fields : list (string * string))
    (err : option error) (msg : string) : Go unit :=
  emit (EvLog level fields err msg).

(** The events a computation adds to the trace of [w]. *)
Definition events_of {A : Type} (m : Go A) (w : World) : list Event :=
  skipn (length (trace w)) (trace (snd (m w))).

(** ** Start and the frame consumers *)

(** The closure given to [OnAudioFrame] or [OnVideoFrame]; it reads the
    manager's track when it runs, and a nil track is a nil dereference. *)
Definition frameConsumer (track : WebRTCManager -> option TrackLocalStaticSample)
    (failure : string) (sample : Sample) : Go (outcome unit) :=
  (m <- getManager ;;
   match track m with
   | None => ret Panicked
   | Some t =>
       r <- ask (EvWriteSample t sample) (WriteSample t sample) ;;
       match r with
       | Some err =>
           if negb (error_eqb err io_ErrClosedPipe) then
             log WarnLevel [] (Some err) failure ;;;
             ret (Returned tt)
           else ret (Returned tt)
       | None => ret (Returned tt)
       end
   end)%go.

Definition audioFrameConsumer : Sample -> Go (outcome unit) :=
  frameConsumer audioTrack "audio pipeline failed to write".

Definition videoFrameConsumer : Sample -> Go (outcome unit) :=
  frameConsumer videoTrack "video pipeline failed to write".

Definition setAudio (m : WebRTCManager)
    (t : option TrackLocalStaticSample) (c : RTPCodecParameters) : WebRTCManager :=
  {| videoTrack := videoTrack m; audioTrack := t;
     videoCodec := videoCodec m; audioCodec := c;
     config := config m |}.

Definition setVideo (m : WebRTCManager)
    (t : option TrackLocalStaticSample) (c : RTPCodecParameters) : WebRTCManager :=
  {| videoTrack := t; audioTrack := audioTrack m;
     videoCodec := c; audioCodec := audioCodec m;
     config := config m |}.

(** [Start]: the three results of [createTrack] are stored in the manager
    before the error is looked at.  [logger.Panic()] logs and panics. *)
Definition Start : Go (outcome unit) :=
  (m <- getManager ;;
   let '(t, c, err) := createTrack AudioCodec in
   setManager (setAudio m t c) ;;;
   match err with
   | Some e =>
       log PanicLevel [] (Some e) "unable to create audio track" ;;; ret Panicked
   | None =>
       emit EvOnAudioFrame ;;;
       m <- getManager ;;
       let '(t, c, err) := createTrack VideoCodec in
       setManager (setVideo m t c) ;;;
       match err with
       | Some e =>
           log PanicLevel [] (Some e) "unable to create video track" ;;; ret Panicked
       | None =>
           emit EvOnVideoFrame ;;;
           m <- getManager ;;
           log InfoLevel
             [("ice_lite", Sprintf_t (ICELite (config m)));
              ("ice_servers", Sprintf_v (cfgICEServers (config m)));
              ("ephemeral_port_range",
               Sprintf_d_d (EphemeralMin (config m)) (EphemeralMax (config m)));
              ("nat_ips", String.concat "," (NAT1To1IPs (config m)))]
             None "webrtc starting" ;;;
           ret (Returned tt)
       end
   end)%go.

(** The producer delivers samples one after the other; a panic ends it. *)
Fixpoint deliver (consumer : Sample -> Go (outcome unit)) (samples : list Sample)
  : Go (outcome unit) :=
  match samples with
  | [] => ret (Returned tt)
  | s :: rest =>
      (r <- consumer s ;;
       match r with
       | Panicked => ret Panicked
       | Returned _ => deliver consumer rest
       end)%go
  end.

(** ** The callbacks registered on a connection *)

(** [d.OnMessage] inside [OnDataChannel]:
    [if err = manager.handle(id, msg); err != nil].  The closure assigns the
    [err] of its [CreatePeer] call and then reads it back; the state closure
    of the same call assigns the same variable, and the connection may run
    the two at once.  The assignment and the test are two steps, and a run
    of the closure on its own is one after the other. *)
Definition messageAssign (id : string) (err : ErrVar) (msg : DataChannelMessage)
  : Go unit :=
  (r <- ask (EvHandle id msg) (handle id msg) ;;
   storeErr err r)%go.

Definition messageTest (err : ErrVar) : Go unit :=
  (e <- loadErr err ;;
   match e with
   | Some e => log WarnLevel [] (Some e) "data handle failed"
   | None => ret tt
   end)%go.

Definition onDataChannelMessage (id : string) (err : ErrVar)
    (msg : DataChannelMessage) : Go unit :=
  (messageAssign id err msg ;;; messageTest err)%go.

Definition onICEConnectionStateChange (connectionState : ICEConnectionState)
  : Go unit :=
  log InfoLevel [("connection_state", ICEConnectionState_String connectionState)]
    None "connection state has changed".

Definition call_Destroy (id : string) : Go unit :=
  (call (EvDestroy id) (Destroy id) ;;; ret tt)%go.

(** The connected case of [OnConnectionStateChange]:
    [if err = session.SetConnected(true); err != nil], on the same captured
    [err], again as the assignment and the test. *)
Definition connectedAssign (id : string) (session : Session) (err : ErrVar)
  : Go unit :=
  (log InfoLevel [("id", id)] None "peer connected" ;;;
   r <- call (EvSetConnected session true) (SetConnected session true) ;;
   storeErr err r)%go.

Definition connectedTest (id : string) (err : ErrVar) : Go unit :=
  (e <- loadErr err ;;
   match e with
   | Some e =>
       log WarnLevel [] (Some e) "unable to set connected on peer" ;;;
       call_Destroy id
   | None => ret tt
   end)%go.

(** [OnConnectionStateChange], run on its own: the [switch state] has no
    default case, and only the connected case touches [err]. *)
Definition onConnectionStateChange (id : string) (session : Session)
    (err : ErrVar) (state : PeerConnectionState) : Go unit :=
  (match state with
   | PeerConnectionStateDisconnected =>
       log InfoLevel [("id", id)] None "peer disconnected" ;;;
       call_Destroy id
   | PeerConnectionStateFailed =>
       log WarnLevel [("id", id)] None "peer failed" ;;;
       call_Destroy id
   | PeerConnectionStateClosed =>
       log InfoLevel [("id", id)] None "peer closed" ;;;
       call_Destroy id
   | PeerConnectionStateConnected =>
       connectedAssign id session err ;;; connectedTest id err
   | _ => ret tt
   end)%go.

(** [OnICECandidate]: [None] is the nil candidate that ends gathering. *)
Definition onICECandidate (session : Session) (i : option ICECandidate)
  : Go unit :=
  (match i with
   | None => log InfoLevel [] None "sent all ICECandidates"
   | Some c =>
       r <- ask (EvMarshal (ToJSON c)) (json_Marshal (ToJSON c)) ;;
       match r with
       | Err err =>
           log WarnLevel [] (Some err) "converting ICECandidate to json failed"
       | Ok candidateString =>
           r <- call (EvSignalCandidate session candidateString)
                  (SignalCandidate session candidateString) ;;
           match r with
           | Some err =>
               log WarnLevel [] (Some err) "sending SignalCandidate failed"
           | None => ret tt
           end
       end
   end)%go.

(** The connection fires the candidate callback once per event. *)
Fixpoint trickle (session : Session) (candidates : list (option ICECandidate))
  : Go unit :=
  match candidates with
  | [] => ret tt
  | i :: rest => (onICECandidate session i ;;; trickle session rest)%go
  end.

(** ** The RTCP drain loop *)

(** [make([]byte, 1500)] *)
Definition rtcpBuf : list Z := repeat 0%Z 1500.

(** The [for] loop of one drain goroutine, started at its [k]-th read;
    [None] when [fuel] iterations were not enough to see it return. *)
Fixpoint rtcpDrain (fuel : nat) (sender : RTPSender) (k : nat)
  : Go (option unit) :=
  match fuel with
  | O => ret None
  | S fuel' =>
      (r <- ask (EvRead sender (length rtcpBuf))
             (Read sender k (length rtcpBuf)) ;;
       match readErr r with
       | Some _ => ret (Some tt)
       | None => rtcpDrain fuel' sender (S k)
       end)%go
  end.

(** ** CreatePeer *)

Definition CreatePeerResult : Type :=
  (string * bool * list ICEServer * option error)%type.

Definition offerOf (r : CreatePeerResult) : string := fst (fst (fst r)).
Definition liteOf (r : CreatePeerResult) : bool := snd (fst (fst r)).
Definition serversOf (r : CreatePeerResult) : list ICEServer := snd (fst r).
Definition errOf (r : CreatePeerResult) : option error := snd r.

(** The configuration and the settings before the engine is touched. *)
Definition configurationFor (cfg : WebRTCConfig) : Configuration :=
  let configuration :=
    {| ICEServers := cfgICEServers cfg;
       Semantics := SDPSemanticsUnifiedPlanWithFallback |} in
  if ICELite cfg then
    {| ICEServers := []; Semantics := SDPSemanticsUnifiedPlanWithFallback |}
  else configuration.

Definition settingsFor (cfg : WebRTCConfig) : SettingEngine :=
  let settings : SettingEngine := [] in
  let settings := if ICELite cfg then settings ++ [SetLite true] else settings in
  settings ++
  [SetEphemeralUDPPortRange (EphemeralMin cfg) (EphemeralMax cfg);
   SetNAT1To1IPs (NAT1To1IPs cfg) ICECandidateTypeHost;
   SetICETimeouts (6 * time_Second) (6 * time_Second) (3 * time_Second);
   SetSRTPReplayProtectionWindow 512].

(** [engine.RegisterCodec] twice on an empty engine. *)
Definition engineFor (m : WebRTCManager) : MediaEngine :=
  [(audioCodec m, RTPCodecTypeAudio); (videoCodec m, RTPCodecTypeVideo)].

(** [webrtc.RegisterDefaultInterceptors(&engine, i)] on that engine and on
    the empty registry [i]: what it returns, and the engine and the
    registry as it leaves them. *)
Definition interceptorsError (m : WebRTCManager) : option error :=
  snd (RegisterDefaultInterceptors (engineFor m) emptyRegistry).

Definition interceptedEngine (m : WebRTCManager) : MediaEngine :=
  fst (fst (RegisterDefaultInterceptors (engineFor m) emptyRegistry)).

Definition interceptorRegistry (m : WebRTCManager) : InterceptorRegistry :=
  snd (fst (RegisterDefaultInterceptors (engineFor m) emptyRegistry)).

(** [NewAPI] gets [&engine] and [i] after that call. *)
Definition apiFor (m : WebRTCManager) : API InterceptorRegistry :=
  {| apiMediaEngine := interceptedEngine m;
     apiSettingEngine := settingsFor (config m);
     apiInterceptorRegistry := interceptorRegistry m |}.

Definition dataChannelInit : DataChannelInit := {| Negotiated := Some true |}.

(** The [&Peer{...}] literal handed to [SetPeer]; its engine is the same
    [&engine]. *)
Definition peerFor (id : string) (m : WebRTCManager) (connection : PeerConnection)
  : Peer :=
  {| peerId := id; peerApi := apiFor m; peerEngine := interceptedEngine m;
     peerManager := managerPtr; peerSettings := settingsFor (config m);
     peerConnection := connection;
     peerConfiguration := configurationFor (config m) |}.

(** [CreatePeer].  The variable [err] is declared with the connection and
    assigned by each later step that is not an [if err := ...]; the test
    that follows an assignment sees the value just assigned, no closure of
    this connection running before the offer has left.  [AddTrack] on a nil
    track panics. *)
Definition CreatePeer (id : string) (session : Session)
  : Go (outcome CreatePeerResult) :=
  (m <- getManager ;;
   let cfg := config m in
   let configuration := configurationFor cfg in
   let failed (e : error) : Go (outcome CreatePeerResult) :=
     ret (Returned ("", ICELite cfg, cfgICEServers cfg, Some e)) in
   r <- ask (EvRegisterDefaultInterceptors (engineFor m) emptyRegistry)
          (interceptorsError m) ;;
   match r with
   | Some e => failed e
   | None =>
   let api := apiFor m in
   r <- ask (EvNewPeerConnection api configuration)
          (NewPeerConnection api configuration) ;;
   err <- declareErr (errorOf r) ;;
   match r with
   | Err e => failed e
   | Ok connection =>
   r <- ask (EvCreateDataChannel connection "data" dataChannelInit)
          (CreateDataChannel connection "data" dataChannelInit) ;;
   storeErr err r ;;;
   match r with
   | Some e => failed e
   | None =>
   emit (EvRegister connection (DataChannelCallback id err)) ;;;
   emit (EvRegister connection ICEConnectionStateCallback) ;;;
   match videoTrack m with
   | None => emit (EvAddTrack connection None) ;;; ret Panicked
   | Some video =>
   r <- ask (EvAddTrack connection (Some video)) (AddTrack connection video) ;;
   storeErr err (errorOf r) ;;;
   match r with
   | Err e => failed e
   | Ok rtpVideo =>
   match audioTrack m with
   | None => emit (EvAddTrack connection None) ;;; ret Panicked
   | Some audio =>
   r <- ask (EvAddTrack connection (Some audio)) (AddTrack connection audio) ;;
   storeErr err (errorOf r) ;;;
   match r with
   | Err e => failed e
   | Ok rtpAudio =>
   r <- ask (EvCreateOffer connection) (CreateOffer connection) ;;
   storeErr err (errorOf r) ;;;
   match r with
   | Err e => failed e
   | Ok description =>
   r <- ask (EvSetLocalDescription connection description)
          (SetLocalDescription connection description) ;;
   storeErr err r ;;;
   match r with
   | Some e => failed e
   | None =>
   emit (EvRegister connection (ConnectionStateCallback id session err)) ;;;
   emit (EvRegister connection (ICECandidateCallback session)) ;;;
   let peer := peerFor id m connection in
   r <- call (EvSetPeer session peer) (SetPeer session peer) ;;
   match r with
   | Some e => failed e
   | None =>
   emit (EvGo rtpVideo) ;;;
   emit (EvGo rtpAudio) ;;;
   ret (Returned (SDP description, ICELite cfg, cfgICEServers cfg, None))
   end end end end end end end end end end)%go.

(** What a callback does when the connection fires it. *)
Inductive Fired : Type :=
| FiredMessage (msg : DataChannelMessage)
| FiredICEState (st : ICEConnectionState)
| FiredState (st : PeerConnectionState)
| FiredCandidate (i : option ICECandidate).

Definition fire (cb : Callback) (arg : Fired) : Go unit :=
  match cb, arg with
  | DataChannelCallback id err, FiredMessage msg => onDataChannelMessage id err msg
  | ICEConnectionStateCallback, FiredICEState st => onICEConnectionStateChange st
  | ConnectionStateCallback id session err, FiredState st =>
      onConnectionStateChange id session err st
  | ICECandidateCallback session, FiredCandidate i => onICECandidate session i
  | _, _ => ret tt
  end.

(** ** Reading a trace *)

Definition destroyCalls (evs : list Event) : list string :=
  flat_map (fun e => match e with EvDestroy id => [id] | _ => [] end) evs.

Definition setConnectedCalls (evs : list Event) : list (Session * bool) :=
  flat_map (fun e => match e with EvSetConnected s b => [(s, b)] | _ => [] end) evs.

Definition setPeerCalls (evs : list Event) : list (Session * Peer) :=
  flat_map (fun e => match e with EvSetPeer s p => [(s, p)] | _ => [] end) evs.

Definition signalCandidateCalls (evs : list Event) : list (Session * string) :=
  flat_map (fun e => match e with EvSignalCandidate s c => [(s, c)] | _ => [] end) evs.

Definition warnings (evs : list Event) : list string :=
  flat_map (fun e => match e with EvLog WarnLevel _ _ msg => [msg] | _ => [] end) evs.

Definition logs (evs : list Event) : list string :=
  flat_map (fun e => match e with EvLog _ _ _ msg => [msg] | _ => [] end) evs.

Definition writeSampleCalls (evs : list Event)
  : list (TrackLocalStaticSample * Sample) :=
  flat_map (fun e => match e with EvWriteSample t s => [(t, s)] | _ => [] end) evs.

(** The ICE server lists of the configurations connections were built with. *)
Definition appliedICEServers (evs : list Event) : list (list ICEServer) :=
  flat_map (fun e => match e with
                     | EvNewPeerConnection _ c => [ICEServers c]
                     | _ => []
                     end) evs.

Definition localDescriptions (evs : list Event) : list SessionDescription :=
  flat_map (fun e => match e with EvSetLocalDescription _ d => [d] | _ => [] end) evs.

Definition spawned (evs : list Event) : list RTPSender :=
  flat_map (fun e => match e with EvGo s => [s] | _ => [] end) evs.

Definition reads (evs : list Event) : list (RTPSender * nat) :=
  flat_map (fun e => match e with EvRead s n => [(s, n)] | _ => [] end) evs.

(** The [SignalCandidate] call a candidate event leads to. *)
Definition signalled (session : Session) (i : option ICECandidate)
  : list (Session * string) :=
  match i with
  | None => []
  | Some c =>
      match json_Marshal (ToJSON c) with
      | Ok text => [(session, text)]
      | Err _ => []
      end
  end.

(** ** The failure policy, step by step

    [FailsAt id session w step err]: in the world [w], the steps of
    [CreatePeer id session] before [step] succeed, on tracks that are there,
    and [step] fails with [err]. *)

Inductive Step : Type :=
| StepInterceptors
| StepPeerConnection
| StepDataChannel
| StepVideoTrack
| StepAudioTrack
| StepOffer
| StepLocalDescription
| StepSetPeer.

Inductive FailsAt (id : string) (session : Session) (w : World)
  : Step -> error -> Prop :=
| FailsInterceptors err :
    interceptorsError (manager w) = Some err ->
    FailsAt id session w StepInterceptors err
| FailsPeerConnection err :
    interceptorsError (manager w) = None ->
    NewPeerConnection (apiFor (manager w))
      (configurationFor (config (manager w))) = Err err ->
    FailsAt id session w StepPeerConnection err
| FailsDataChannel c err :
    interceptorsError (manager w) = None ->
    NewPeerConnection (apiFor (manager w))
      (configurationFor (config (manager w))) = Ok c ->
    CreateDataChannel c "data" dataChannelInit = Some err ->
    FailsAt id session w StepDataChannel err
| FailsVideoTrack c video err :
    interceptorsError (manager w) = None ->
    NewPeerConnection (apiFor (manager w))
      (configurationFor (config (manager w))) = Ok c ->
    CreateDataChannel c "data" dataChannelInit = None ->
    videoTrack (manager w) = Some video ->
    AddTrack c video = Err err ->
    FailsAt id session w StepVideoTrack err
| FailsAudioTrack c video rtpVideo audio err :
    interceptorsError (manager w) = None ->
    NewPeerConnection (apiFor (manager w))
      (configurationFor (config (manager w))) = Ok c ->
    CreateDataChannel c "data" dataChannelInit = None ->
    videoTrack (manager w) = Some video ->
    AddTrack c video = Ok rtpVideo ->
    audioTrack (manager w) = Some audio ->
    AddTrack c audio = Err err ->
    FailsAt id session w StepAudioTrack err
| FailsOffer c video rtpVideo audio rtpAudio err :
    interceptorsError (manager w) = None ->
    NewPeerConnection (apiFor (manager w))
      (configurationFor (config (manager w))) = Ok c ->
    CreateDataChannel c "data" dataChannelInit = None ->
    videoTrack (manager w) = Some video ->
    AddTrack c video = Ok rtpVideo ->
    audioTrack (manager w) = Some audio ->
    AddTrack c audio = Ok rtpAudio ->
    CreateOffer c = Err err ->
    FailsAt id session w StepOffer err
| FailsLocalDescription c video rtpVideo audio rtpAudio d err :
    interceptorsError (manager w) = None ->
    NewPeerConnection (apiFor (manager w))
      (configurationFor (config (manager w))) = Ok c ->
    CreateDataChannel c "data" dataChannelInit = None ->
    videoTrack (manager w) = Some video ->
    AddTrack c video = Ok rtpVideo ->
    audioTrack (manager w) = Some audio ->
    AddTrack c audio = Ok rtpAudio ->
    CreateOffer c = Ok d ->
    SetLocalDescription c d = Some err ->
    FailsAt id session w StepLocalDescription err
| FailsSetPeer c video rtpVideo audio rtpAudio d err :
    interceptorsError (manager w) = None ->
    NewPeerConnection (apiFor (manager w))
      (configurationFor (config (manager w))) = Ok c ->
    CreateDataChannel c "data" dataChannelInit = None ->
    videoTrack (manager w) = Some video ->
    AddTrack c video = Ok rtpVideo ->
    audioTrack (manager w) = Some audio ->
    AddTrack c audio = Ok rtpAudio ->
    CreateOffer c = Ok d ->
    SetLocalDescription c d = None ->
    snd (SetPeer session (peerFor id (manager w) c) (store w)) = Some err ->
    FailsAt id session w StepSetPeer err.

(** ** The codec table as the specification lists it

    One row per supported name: mime type, clock rate, channel count, fmtp
    line and payload type.  [createTrack] is compared with it below. *)

Definition WireParameters : Type := (string * Z * Z * string * Z)%type.

Definition specCodecTable : list (string * WireParameters) :=
  [("VP8", ("video/VP8", 90000, 0, "", 96));
   ("VP9", ("video/VP9", 90000, 0, "", 98));
   ("H264", ("video/H264", 90000, 0,
             "level-asymmetry-allowed=1;packetization-mode=1;profile-level-id=42001f",
             102));
   ("Opus", ("audio/opus", 48000, 2, "", 111));
   ("G722", ("audio/G722", 8000, 0, "", 9));
   ("PCMU", ("audio/PCMU", 8000, 0, "", 0));
   ("PCMA", ("audio/PCMA", 8000, 0, "", 8))]%Z.

Definition wireParameters (codec : RTPCodecParameters) : WireParameters :=
  (MimeType (Capability codec), ClockRate (Capability codec),
   Channels (Capability codec), SDPFmtpLine (Capability codec),
   PayloadType codec).

(** An error that reads as the specification words it. *)
Definition saysUnsupportedCodec (e : error) : bool :=
  contains "unsupported codec" (Error e).

(** ** New and Shutdown *)

(** [New]: the struct literal sets the three interfaces and the config; the
    tracks are nil and the codecs zero until [Start]. *)
Definition New (cfg : WebRTCConfig) : WebRTCManager :=
  {| videoTrack := None; audioTrack := None;
     videoCodec := zeroCodec; audioCodec := zeroCodec;
     config := cfg |}.

(** [Shutdown] logs and returns nil. *)
Definition Shutdown : Go (option error) :=
  (log InfoLevel [] None "webrtc shutting down" ;;; ret None)%go.

(** ** Runs of callbacks *)

(** The data channel delivers messages one after the other, each to the
    closure run on its own. *)
Fixpoint receive (id : string) (err : ErrVar) (msgs : list DataChannelMessage)
  : Go unit :=
  match msgs with
  | [] => ret tt
  | msg :: rest => (onDataChannelMessage id err msg ;;; receive id err rest)%go
  end.

(** What another closure of the same call may do to [err] between the
    assignment and the test of this one: nothing, or assign it. *)
Definition meanwhile (err : ErrVar) (other : option (option error)) : Go unit :=
  match other with
  | None => ret tt
  | Some e => storeErr err e
  end.

(** The same delivery with the state closure of the call running at the
    same time: each message comes with what happens to [err] meanwhile. *)
Definition messageAmid (id : string) (err : ErrVar)
    (msg : DataChannelMessage) (other : option (option error)) : Go unit :=
  (messageAssign id err msg ;;; meanwhile err other ;;; messageTest err)%go.

Fixpoint receiveAmid (id : string) (err : ErrVar)
    (msgs : list (DataChannelMessage * option (option error))) : Go unit :=
  match msgs with
  | [] => ret tt
  | (msg, other) :: rest =>
      (messageAmid id err msg other ;;; receiveAmid id err rest)%go
  end.

(** The connection reports its states one after the other. *)
Fixpoint transitions (id : string) (session : Session) (err : ErrVar)
    (states : list PeerConnectionState) : Go unit :=
  match states with
  | [] => ret tt
  | st :: rest =>
      (onConnectionStateChange id session err st ;;;
       transitions id session err rest)%go
  end.

(** The connected case with the message closure of the same call run in
    between its assignment and its test. *)
Definition connectedAmid (id : string) (session : Session) (err : ErrVar)
    (msg : DataChannelMessage) : Go unit :=
  (connectedAssign id session err ;;;
   onDataChannelMessage id err msg ;;;
   connectedTest id err)%go.

Definition isTerminal (st : PeerConnectionState) : bool :=
  match st with
  | PeerConnectionStateDisconnected
  | PeerConnectionStateFailed
  | PeerConnectionStateClosed => true
  | _ => false
  end.

Definition isConnected (st : PeerConnectionState) : bool :=
  match st with
  | PeerConnectionStateConnected => true
  | _ => false
  end.

(** ** More readers of a trace *)

Definition addTrackCalls (evs : list Event)
  : list (PeerConnection * option TrackLocalStaticSample) :=
  flat_map (fun e => match e with EvAddTrack c t => [(c, t)] | _ => [] end) evs.

Definition connectionsBuilt (evs : list Event)
  : list (API InterceptorRegistry * Configuration) :=
  flat_map (fun e => match e with
                     | EvNewPeerConnection api c => [(api, c)]
                     | _ => []
                     end) evs.

Definition interceptorCalls (evs : list Event)
  : list (MediaEngine * InterceptorRegistry) :=
  flat_map (fun e => match e with
                     | EvRegisterDefaultInterceptors engine i => [(engine, i)]
                     | _ => []
                     end) evs.

Definition dataChannelCalls (evs : list Event)
  : list (PeerConnection * string * DataChannelInit) :=
  flat_map (fun e => match e with
                     | EvCreateDataChannel c label init => [(c, label, init)]
                     | _ => []
                     end) evs.

Definition handleCalls (evs : list Event) : list (string * DataChannelMessage) :=
  flat_map (fun e => match e with EvHandle id msg => [(id, msg)] | _ => [] end) evs.

Definition registrations (evs : list Event) : list (PeerConnection * Callback) :=
  flat_map (fun e => match e with EvRegister c cb => [(c, cb)] | _ => [] end) evs.

Definition consumersRegistered (evs : list Event) : list Event :=
  filter (fun e => match e with
                   | EvOnAudioFrame | EvOnVideoFrame => true
                   | _ => false
                   end) evs.

(** The messages [handle] refuses, in order. *)
Definition refusedMessages (id : string) (msgs : list DataChannelMessage)
  : list DataChannelMessage :=
  filter (fun msg => match handle id msg with Some _ => true | None => false end)
    msgs.

(** ** What the proofs ask of the interfaces *)

(** The engine never hands out an offer with an empty SDP. *)
Definition offers_are_not_empty : Prop :=
  forall c d, CreateOffer c = Ok d -> SDP d <> "".

(** A session that refuses a peer keeps what every session held. *)
Definition refused_peer_is_not_attached : Prop :=
  forall session peer st,
    snd (SetPeer session peer st) <> None ->
    forall s, AttachedPeer (fst (SetPeer session peer st)) s = AttachedPeer st s.

(** The JSON text of a candidate carries its address. *)
Definition json_carries_address : Prop :=
  forall c text, json_Marshal (ToJSON c) = Ok text ->
    contains (Address c) text = true.

(** The tracks are there, as [Start] leaves them. *)
Definition Started (w : World) : Prop :=
  audioTrack (manager w) <> None /\ videoTrack (manager w) <> None.

End Model.

(** ** A small engine and registry to run the model on *)

Module Scenario.

Definition quote : string := String "034"%char EmptyString.

(** What the engine answers: an error for the step that is to fail. *)
Record Script : Type := {
  interceptorsErr : option error;
  peerConnectionErr : option error;
  dataChannelErr : option error;
  videoTrackErr : option error;
  audioTrackErr : option error;
  offerAnswer : result SessionDescription;
  localDescriptionErr : option error;
  readsBeforeClose : nat
}.

Definition smooth : Script :=
  {| interceptorsErr := None; peerConnectionErr := None; dataChannelErr := None;
     videoTrackErr := None; audioTrackErr := None;
     offerAnswer := Ok {| SDP := "v=0" |};
     localDescriptionErr := None; readsBeforeClose := 3 |}.

Definition candidateText (address : string) : string :=
  String.append "candidate:"
    (if String.eqb address "" then ""
     else String.append "1 1 udp 2130706431 "
            (String.append address " 50000 typ host")).

Definition marshalText (init : ICECandidateInit) : string :=
  String.append "{" (String.append quote (String.append "candidate"
    (String.append quote (String.append ":" (String.append quote
    (String.append (Candidate init) (String.append quote "}"))))))).

(** The default interceptors add NACK feedback to the video codecs of the
    engine they are registered on. *)
Definition withNack (entry : RTPCodecParameters * RTPCodecType)
  : RTPCodecParameters * RTPCodecType :=
  match entry with
  | (codec, RTPCodecTypeVideo) =>
      ({| Capability :=
            {| MimeType := MimeType (Capability codec);
               ClockRate := ClockRate (Capability codec);
               Channels := Channels (Capability codec);
               SDPFmtpLine := SDPFmtpLine (Capability codec);
               RTCPFeedbacks :=
                 RTCPFeedbacks (Capability codec) ++
                 [{| fbType := "nack"; fbParameter := "" |};
                  {| fbType := "nack"; fbParameter := "pli" |}] |};
          PayloadType := PayloadType codec |}, RTPCodecTypeVideo)
  | audio => audio
  end.

(** Tracks and senders are named by mime type, a candidate by its address,
    a sample with duration 1 hits a closed pipe and one with duration 2 a
    short write. *)
#[export] Instance engine (sc : Script) : Pion := {|
  TrackLocalStaticSample := string;
  PeerConnection := nat;
  RTPSender := string;
  ICECandidate := string;
  ICEConnectionState := string;
  DataChannelMessage := string;
  InterceptorRegistry := list string;
  emptyRegistry := [];
  NewTrackLocalStaticSample := fun cap _ _ => Ok (MimeType cap);
  WriteSample := fun _ sample =>
    if Z.eqb (Duration sample) 1 then Some io_ErrClosedPipe
    else if Z.eqb (Duration sample) 2 then Some (errorString "short write")
    else None;
  RegisterDefaultInterceptors := fun engine i =>
    (map withNack engine, i ++ ["nack"; "rtcp-reports"], interceptorsErr sc);
  NewPeerConnection := fun _ _ =>
    match peerConnectionErr sc with Some e => Err e | None => Ok 7%nat end;
  CreateDataChannel := fun _ _ _ => dataChannelErr sc;
  AddTrack := fun _ mime =>
    match (if String.prefix "video" mime then videoTrackErr sc
           else audioTrackErr sc) with
    | Some e => Err e
    | None => Ok mime
    end;
  CreateOffer := fun _ => offerAnswer sc;
  SetLocalDescription := fun _ _ => localDescriptionErr sc;
  Read := fun _ k _ =>
    {| readN := 0;
       readErr := if Nat.ltb k (readsBeforeClose sc) then None
                  else Some io_ErrClosedPipe |};
  ICEConnectionState_String := fun st => st;
  Address := fun c => c;
  ToJSON := fun c =>
    {| Candidate := candidateText c; SDPMid := Some "";
       SDPMLineIndex := Some 0%Z; UsernameFragment := None |};
  json_Marshal := fun init =>
    if String.eqb (Candidate init) "candidate:"
    then Err (errorString "json: unsupported value")
    else Ok (marshalText init);
  Sprintf_v := fun servers => String.concat " " (flat_map URLs servers)
|}.

#[export] Instance producer (sc : Script) : @Remote (engine sc) := {|
  AudioCodec := "Opus";
  VideoCodec := "VP8";
  handle := fun _ (msg : @DataChannelMessage (engine sc)) =>
    if String.eqb (msg : string) "" then Some (errorString "empty message") else None
|}.

(** Sessions are named; the one called closed refuses peers, ghost cannot
    be marked connected and mute cannot be signalled. *)
#[export] Instance registry (sc : Script) : @Sessions (engine sc) := {|
  Store := string -> option (@Peer (engine sc));
  Session := string;
  Destroy := fun id st =>
    (fun s => if String.eqb s id then None else st s, None);
  SetPeer := fun session peer st =>
    if String.eqb session "closed" then (st, Some (errorString "session closed"))
    else (fun s => if String.eqb s session then Some peer else st s, None);
  SetConnected := fun session _ st =>
    if String.eqb session "ghost" then (st, Some (errorString "no such session"))
    else (st, None);
  SignalCandidate := fun session _ st =>
    if String.eqb session "mute" then (st, Some (errorString "socket closed"))
    else (st, None);
  AttachedPeer := fun st s => st s
|}.

Definition stun : ICEServer :=
  {| URLs := ["stun:stun.l.google.com:19302"]; Username := ""; Credential := "" |}.

Definition turn : ICEServer :=
  {| URLs := ["turn:turn.example.org:3478"]; Username := "neko";
     Credential := "neko" |}.

Definition settings (lite : bool) : WebRTCConfig :=
  {| ICELite := lite; cfgICEServers := [stun; turn];
     EphemeralMin := 59000; EphemeralMax := 59100; NAT1To1IPs := ["10.0.0.5"] |}.

Definition nobody (sc : Script) : @Store (engine sc) (registry sc) :=
  fun _ : string => @None (@Peer (engine sc)).

(** The world before [Start]: nil tracks, nobody connected, nothing called. *)
Definition boot (sc : Script) (lite : bool)
  : @World (engine sc) (registry sc) :=
  {| manager := {| videoTrack := None; audioTrack := None;
                   videoCodec := zeroCodec; audioCodec := zeroCodec;
                   config := settings lite |};
     store := nobody sc;
     trace := [];
     captured := fun _ => None;
     declared := 0 |}.

(** The world once [Start] has run. *)
Definition started (sc : Script) (lite : bool)
  : @World (engine sc) (registry sc) :=
  snd (@Start (engine sc) (producer sc) (registry sc) (boot sc lite)).

Definition failing (step : Step) : Script :=
  let e := Some (errorString "boom") in
  match step with
  | StepInterceptors =>
      {| interceptorsErr := e; peerConnectionErr := None; dataChannelErr := None;
         videoTrackErr := None; audioTrackErr := None;
         offerAnswer := Ok {| SDP := "v=0" |};
         localDescriptionErr := None; readsBeforeClose := 3 |}
  | StepPeerConnection =>
      {| interceptorsErr := None; peerConnectionErr := e; dataChannelErr := None;
         videoTrackErr := None; audioTrackErr := None;
         offerAnswer := Ok {| SDP := "v=0" |};
         localDescriptionErr := None; readsBeforeClose := 3 |}
  | StepDataChannel =>
      {| interceptorsErr := None; peerConnectionErr := None; dataChannelErr := e;
         videoTrackErr := None; audioTrackErr := None;
         offerAnswer := Ok {| SDP := "v=0" |};
         localDescriptionErr := None; readsBeforeClose := 3 |}
  | StepVideoTrack =>
      {| interceptorsErr := None; peerConnectionErr := None; dataChannelErr := None;
         videoTrackErr := e; audioTrackErr := None;
         offerAnswer := Ok {| SDP := "v=0" |};
         localDescriptionErr := None; readsBeforeClose := 3 |}
  | StepAudioTrack =>
      {| interceptorsErr := None; peerConnectionErr := None; dataChannelErr := None;
         videoTrackErr := None; audioTrackErr := e;
         offerAnswer := Ok {| SDP := "v=0" |};
         localDescriptionErr := None; readsBeforeClose := 3 |}
  | StepOffer =>
      {| interceptorsErr := None; peerConnectionErr := None; dataChannelErr := None;
         videoTrackErr := None; audioTrackErr := None;
         offerAnswer := Err (errorString "boom");
         localDescriptionErr := None; readsBeforeClose := 3 |}
  | StepLocalDescription =>
      {| interceptorsErr := None; peerConnectionErr := None; dataChannelErr := None;
         videoTrackErr := None; audioTrackErr := None;
         offerAnswer := Ok {| SDP := "v=0" |};
         localDescriptionErr := e; readsBeforeClose := 3 |}
  | StepSetPeer => smooth
  end.

(** A producer whose audio codec is not in the table. *)
Definition strayProducer (sc : Script) : @Remote (engine sc) := {|
  AudioCodec := "MP3";
  VideoCodec := "VP8";
  handle := fun _ (msg : @DataChannelMessage (engine sc)) => @None error
|}.

(** The world right after [New]. *)
Definition fresh (sc : Script) (lite : bool) : @World (engine sc) (registry sc) :=
  {| manager := @New (engine sc) (settings lite);
     store := nobody sc;
     trace := [];
     captured := fun _ => None;
     declared := 0 |}.

End Scenario.

Import Scenario.

Local Abbreviation CreatePeerIn sc := (@CreatePeer (engine sc) (registry sc)).
Local Abbreviation eventsIn sc := (@events_of (engine sc) (registry sc) _).

(** * Properties *)

(** ** Substrings *)

Lemma prefix_append (a b : string) : String.prefix a (String.append a b) = true.
Proof.
  induction a as [|ch a IH]; cbn; [now destruct b|].
  destruct (ascii_dec ch ch) as [_|Hne]; [exact IH|now elim Hne].
Qed.

Lemma contains_here (a b : string) : contains a (String.append a b) = true.
Proof.
  destruct a as [|ch a].
  - destruct b; reflexivity.
  - cbn [String.append contains]. change (String ch (String.append a b))
      with (String.append (String ch a) b).
    now rewrite prefix_append.
Qed.

Lemma contains_later (needle before hay : string) :
  contains needle hay = true ->
  contains needle (String.append before hay) = true.
Proof.
  intros H. induction before as [|ch before IH]; cbn [String.append]; [exact H|].
  cbn [contains]. rewrite IH. apply orb_true_r.
Qed.

Lemma contains_cons (needle hay : string) (ch : ascii) :
  contains needle hay = true -> contains needle (String ch hay) = true.
Proof. apply (contains_later needle (String ch EmptyString)). Qed.

Lemma append_assoc (a b c : string) :
  String.append (String.append a b) c = String.append a (String.append b c).
Proof. induction a as [|ch a IH]; cbn; [reflexivity|now rewrite IH]. Qed.

Lemma contains_inside (needle before after : string) :
  contains needle (String.append before (String.append needle after)) = true.
Proof. apply contains_later, contains_here. Qed.

Section Properties.

Context {P : Pion} {R : Remote} {SM : Sessions}.

Lemma skipn_length_app (A : Type) (l l' : list A) :
  skipn (length l) (l ++ l') = l'.
Proof. induction l as [|a l IH]; simpl; auto. Qed.

Lemma error_eqb_eq (a b : error) : error_eqb a b = true <-> a = b.
Proof.
  destruct a as [|x], b as [|y]; simpl; split; intros H;
    try discriminate; try reflexivity.
  - apply String.eqb_eq in H. now subst.
  - inversion H; subst. apply String.eqb_refl.
Qed.

Lemma assigned_same (vars : ErrVar -> option error) (v : ErrVar) (e : option error) :
  assigned vars v e v = e.
Proof. unfold assigned. now rewrite Nat.eqb_refl. Qed.

(** Unfold a computation down to the oracles it consults. *)
Ltac go_run :=
  cbv beta iota zeta delta
    [CreatePeer Start frameConsumer audioFrameConsumer videoFrameConsumer
     onConnectionStateChange onICECandidate onDataChannelMessage
     onICEConnectionStateChange messageAssign messageTest connectedAssign
     connectedTest connectedAmid meanwhile messageAmid
     bind ret ask call emit log getManager setManager call_Destroy
     declareErr storeErr loadErr
     events_of offerOf liteOf serversOf errOf manager store trace captured
     declared fst snd] in *.

(** Split on the answer of the next oracle. *)
Ltac oracle :=
  match goal with
  | |- context [match ?x with _ => _ end] =>
      lazymatch x with
      | context [match _ with _ => _ end] => fail
      | _ => destruct x eqn:?; cbv beta iota zeta delta [fst snd]
      end
  end.

(** Read the new events off a trace that grew at its end. *)
Ltac go_trace :=
  rewrite <- ?app_assoc; rewrite ?skipn_length_app; cbn [app].

(** A call that returned, returned this. *)
Ltac returned :=
  let r := fresh "r" in
  let H := fresh "Hr" in
  intros r H; first [discriminate H | inversion H; subst r; clear H];
  cbv beta iota zeta.

(** ** CreatePeer: what comes back *)

Lemma CreatePeer_flag_and_servers (id : string) (session : Session) (w : World) :
  forall r,
    fst (CreatePeer id session w) = Returned r ->
    liteOf r = ICELite (config (manager w)) /\
    serversOf r = cfgICEServers (config (manager w)).
Proof.
  destruct w as [m st tr vars n]. go_run. repeat oracle; returned; auto.
Qed.

Lemma CreatePeer_keeps_manager (id : string) (session : Session) (w : World) :
  manager (snd (CreatePeer id session w)) = manager w.
Proof.
  destruct w as [m st tr vars n]. go_run. repeat oracle; auto.
Qed.

(** C10: a call that returns an error returns the empty offer with the
    configured ICE-lite flag and the configured ICE server list, and a call
    on the same manager that succeeds returns that same flag and list. *)
Theorem CreatePeer_error_result (id : string) (session : Session) (w : World) :
  forall r,
    fst (CreatePeer id session w) = Returned r ->
    errOf r <> None ->
    offerOf r = "" /\
    liteOf r = ICELite (config (manager w)) /\
    serversOf r = cfgICEServers (config (manager w)) /\
    forall id' session' w' r',
      manager w' = manager w ->
      fst (CreatePeer id' session' w') = Returned r' ->
      errOf r' = None ->
      liteOf r' = liteOf r /\ serversOf r' = serversOf r.
Proof.
  intros r Hr Herr. split; [|split; [|split]].
  - revert r Hr Herr. destruct w as [m st tr vars n]. go_run.
    repeat oracle; returned; intros Herr; try reflexivity. now elim Herr.
  - now apply (CreatePeer_flag_and_servers id session w).
  - now apply (CreatePeer_flag_and_servers id session w).
  - intros id' session' w' r' Hm Hr' _.
    destruct (CreatePeer_flag_and_servers id' session' w' r' Hr') as [-> ->].
    destruct (CreatePeer_flag_and_servers id session w r Hr) as [-> ->].
    now rewrite Hm.
Qed.

(** C1, as the code has it: with ICE-lite enabled every connection is
    built with an empty ICE server list and a lite setting engine, one
    connection when the call succeeds; the list the call returns is the
    configured one, next to the flag. *)
Theorem CreatePeer_ice_lite (id : string) (session : Session) (w : World) :
  ICELite (config (manager w)) = true ->
  (forall servers,
      In servers (appliedICEServers (events_of (CreatePeer id session) w)) ->
      servers = []) /\
  (forall api c,
      In (EvNewPeerConnection api c) (events_of (CreatePeer id session) w) ->
      In (SetLite true) (apiSettingEngine api)) /\
  (forall r,
      fst (CreatePeer id session w) = Returned r ->
      (errOf r = None ->
       appliedICEServers (events_of (CreatePeer id session) w) = [[]]) /\
      liteOf r = true /\
      serversOf r = cfgICEServers (config (manager w))).
Proof.
  intros Hlite.
  assert (Hcfg : configurationFor (config (manager w)) =
                 {| ICEServers := []; Semantics := SDPSemanticsUnifiedPlanWithFallback |})
    by (unfold configurationFor; now rewrite Hlite).
  assert (Hset : In (SetLite true) (apiSettingEngine (apiFor (manager w))))
    by (unfold apiFor, settingsFor; cbn [apiSettingEngine]; rewrite Hlite;
        cbn; auto).
  destruct w as [m st tr vars n]. go_run. rewrite Hcfg in *.
  repeat oracle; go_trace; cbn [appliedICEServers flat_map app ICEServers];
    (split;
     [ first [intros servers [<-|[]]; reflexivity | intros servers []]
     | split;
       [ intros api c Hin; cbn [In] in Hin;
         repeat (destruct Hin as [Hin|Hin];
                 [first [discriminate Hin | inversion Hin; subst; exact Hset]|]);
         destruct Hin
       | returned; (split; [|split]);
         first [ assumption | reflexivity
               | intros Hok; first [discriminate Hok | reflexivity] ] ] ]).
Qed.

(** C3: when the engine never produces an offer with an empty SDP, a call
    that succeeds returns a non-empty offer, has called [SetPeer] once, on
    this session and with this viewer's peer, and has set the description
    whose SDP it returns as the local description before that. *)
Theorem CreatePeer_success_offer (id : string) (session : Session) (w : World) :
  offers_are_not_empty ->
  forall r,
    fst (CreatePeer id session w) = Returned r ->
    errOf r = None ->
    offerOf r <> "" /\
    (exists peer,
        setPeerCalls (events_of (CreatePeer id session) w) = [(session, peer)] /\
        peerId peer = id) /\
    exists c d before between after,
      events_of (CreatePeer id session) w =
        before ++ EvSetLocalDescription c d :: between ++
        EvSetPeer session (peerFor id (manager w) c) :: after /\
      CreateOffer c = Ok d /\
      SDP d = offerOf r /\
      localDescriptions (events_of (CreatePeer id session) w) = [d].
Proof.
  intros Hsdp. destruct w as [m st tr vars n]. go_run.
  repeat oracle; go_trace; returned; intros Hok; try discriminate.
  split; [|split].
  - eapply Hsdp; eassumption.
  - eexists; split; reflexivity.
  - match goal with
    | Hc : CreateOffer ?c = Ok ?d,
      Hv : videoTrack m = Some ?video,
      Ha : audioTrack m = Some ?audio |- _ =>
        exists c, d,
          [EvRegisterDefaultInterceptors (engineFor m) emptyRegistry;
           EvNewPeerConnection (apiFor m) (configurationFor (config m));
           EvCreateDataChannel c "data" dataChannelInit;
           EvRegister c (DataChannelCallback id n);
           EvRegister c ICEConnectionStateCallback;
           EvAddTrack c (Some video); EvAddTrack c (Some audio);
           EvCreateOffer c],
          [EvRegister c (ConnectionStateCallback id session n);
           EvRegister c (ICECandidateCallback session)]
    end.
    eexists. repeat split; try reflexivity; try assumption.
Qed.

(** A successful call has registered the message callback, the state
    callback and the candidate callback of this viewer on its connection;
    the first two share the [err] the call declared, which holds nil when
    the call returns; fired, they run the handlers above. *)
Lemma CreatePeer_registers_callbacks (id : string) (session : Session) (w : World) :
  forall r,
    fst (CreatePeer id session w) = Returned r ->
    errOf r = None ->
    exists c,
      registrations (events_of (CreatePeer id session) w) =
        [(c, DataChannelCallback id (declared w));
         (c, ICEConnectionStateCallback);
         (c, ConnectionStateCallback id session (declared w));
         (c, ICECandidateCallback session)] /\
      captured (snd (CreatePeer id session w)) (declared w) = None /\
      (forall state,
          fire (ConnectionStateCallback id session (declared w)) (FiredState state) =
          onConnectionStateChange id session (declared w) state) /\
      (forall msg,
          fire (DataChannelCallback id (declared w)) (FiredMessage msg) =
          onDataChannelMessage id (declared w) msg) /\
      (forall i,
          fire (ICECandidateCallback session) (FiredCandidate i) =
          onICECandidate session i).
Proof.
  destruct w as [m st tr vars n]. go_run.
  repeat oracle; go_trace; returned; intros Hok; try discriminate.
  eexists. split; [reflexivity|]. split; [apply assigned_same|].
  repeat split.
Qed.

(** ** CreatePeer: the failure policy *)

(** Rewrite with the answers a failing run fixes. *)
Ltac answers :=
  repeat match goal with
         | H : ?x = _ |- context [match ?x with _ => _ end] =>
             rewrite H; cbv beta iota zeta delta [fst snd]
         end.

(** Every error [CreatePeer] returns is the error of one of its steps. *)
Lemma CreatePeer_error_comes_from_a_step
    (id : string) (session : Session) (w : World) (err : error) :
  forall r,
    fst (CreatePeer id session w) = Returned r ->
    errOf r = Some err ->
    exists step, FailsAt id session w step err.
Proof.
  destruct w as [m st tr vars n]. go_run.
  repeat oracle; returned; intros Herr; inversion Herr; subst; eexists;
    solve [ econstructor; cbn [manager store]; try eassumption;
            match goal with
            | H : SetPeer _ _ _ = _ |- _ => rewrite H; reflexivity
            end ].
Qed.

(** C6: when a session that refuses a peer keeps what every session held,
    a call whose step [step] fails with [err] returns [err] and no offer,
    leaves every session with the peer it had, makes no [SetPeer] call and
    leaves the store as it was unless the failing step is [SetPeer] itself,
    leaves the manager with its two tracks as it was, writes to no track
    and starts no drain loop. *)
Theorem CreatePeer_failure
    (id : string) (session : Session) (w : World) (step : Step) (err : error) :
  refused_peer_is_not_attached ->
  FailsAt id session w step err ->
  fst (CreatePeer id session w) =
    Returned ("", ICELite (config (manager w)),
              cfgICEServers (config (manager w)), Some err) /\
  (forall s, AttachedPeer (store (snd (CreatePeer id session w))) s =
             AttachedPeer (store w) s) /\
  (step <> StepSetPeer ->
   store (snd (CreatePeer id session w)) = store w /\
   setPeerCalls (events_of (CreatePeer id session) w) = []) /\
  manager (snd (CreatePeer id session w)) = manager w /\
  writeSampleCalls (events_of (CreatePeer id session) w) = [] /\
  spawned (events_of (CreatePeer id session) w) = [].
Proof.
  intros Hrefuse Hfail. destruct w as [m st tr vars n].
  inversion Hfail; subst; cbn [manager store] in *;
    try (go_run; answers; go_trace;
         repeat split; intros; try reflexivity; congruence).
  pose proof (Hrefuse session (peerFor id m c) st) as Hkeep.
  go_run. answers.
  destruct (SetPeer session (peerFor id m c) st) as [st' r] eqn:E.
  cbv beta iota zeta delta [fst snd] in *. subst r. go_trace.
  split; [|split; [|split; [|split; [|split]]]]; try reflexivity.
  - intros s. apply Hkeep. discriminate.
  - intros Hstep. now elim Hstep.
Qed.

(** ** The connection state machine *)

(** C4: fired with [disconnected], [failed] or [closed], the state callback
    of viewer [id] makes one [Destroy] call, for [id]. *)
Theorem terminal_state_destroys_once
    (id : string) (session : Session) (err : ErrVar)
    (state : PeerConnectionState) (w : World) :
  state = PeerConnectionStateDisconnected \/
  state = PeerConnectionStateFailed \/
  state = PeerConnectionStateClosed ->
  destroyCalls (events_of (onConnectionStateChange id session err state) w) = [id].
Proof.
  intros [->|[->| ->]]; destruct w as [m st tr vars n]; go_run;
    destruct (Destroy id st) as [st' r]; go_trace; reflexivity.
Qed.

(** Fired with [connected] and run on its own, with no other closure of
    the call between its assignment and its test, the callback calls
    [SetConnected(true)] on its session once; it makes no [Destroy] call
    when that succeeds and one, for [id], when it fails. *)
Lemma connected_state_marks_or_destroys
    (id : string) (session : Session) (err : ErrVar) (w : World) :
  let evs :=
    events_of (onConnectionStateChange id session err PeerConnectionStateConnected) w in
  setConnectedCalls evs = [(session, true)] /\
  (snd (SetConnected session true (store w)) = None -> destroyCalls evs = []) /\
  (snd (SetConnected session true (store w)) <> None -> destroyCalls evs = [id]).
Proof.
  destruct w as [m st tr vars n]. go_run.
  destruct (SetConnected session true st) as [st' [e|]];
    cbv beta iota zeta delta [fst snd]; rewrite assigned_same; go_trace.
  - destruct (Destroy id st') as [st'' r]. go_trace.
    split; [reflexivity|split]; [discriminate|reflexivity].
  - split; [reflexivity|split]; [reflexivity|]. intros H. now elim H.
Qed.

(** With a message of the same viewer handled between the assignment and
    the test, it is the message handler's answer that decides: the session
    is destroyed exactly when [handle] failed, whatever [SetConnected]
    answered. *)
Lemma connected_state_amid_message
    (id : string) (session : Session) (err : ErrVar)
    (msg : DataChannelMessage) (w : World) :
  let evs := events_of (connectedAmid id session err msg) w in
  setConnectedCalls evs = [(session, true)] /\
  handleCalls evs = [(id, msg)] /\
  (handle id msg = None -> destroyCalls evs = []) /\
  (handle id msg <> None -> destroyCalls evs = [id]).
Proof.
  destruct w as [m st tr vars n]. go_run.
  destruct (SetConnected session true st) as [st' r];
    cbv beta iota zeta delta [fst snd]; rewrite !assigned_same.
  destruct (handle id msg) as [e|]; cbv beta iota zeta delta [fst snd];
    rewrite ?assigned_same; cbv beta iota zeta delta [fst snd].
  - destruct (Destroy id st') as [st'' r']. go_trace.
    split; [reflexivity|]. split; [reflexivity|]. split; [discriminate|reflexivity].
  - go_trace. split; [reflexivity|]. split; [reflexivity|].
    split; [reflexivity|]. intros H. now elim H.
Qed.

(** The other states are not handled at all. *)
Lemma early_states_do_nothing
    (id : string) (session : Session) (err : ErrVar)
    (state : PeerConnectionState) (w : World) :
  state = PeerConnectionStateNew \/ state = PeerConnectionStateConnecting ->
  onConnectionStateChange id session err state w = (tt, w).
Proof. intros [->| ->]; reflexivity. Qed.

(** ** Candidate signalling *)

Lemma signalCandidateCalls_app (l l' : list Event) :
  signalCandidateCalls (l ++ l') = signalCandidateCalls l ++ signalCandidateCalls l'.
Proof. apply flat_map_app. Qed.

Lemma onICECandidate_trace (session : Session) (i : option ICECandidate) (w : World) :
  exists evs,
    trace (snd (onICECandidate session i w)) = trace w ++ evs /\
    manager (snd (onICECandidate session i w)) = manager w /\
    signalCandidateCalls evs = signalled session i.
Proof.
  destruct w as [m st tr vars n]. unfold signalled. go_run.
  destruct i as [c|]; [destruct (json_Marshal (ToJSON c)) as [text|err]|];
    cbv beta iota zeta delta [fst snd].
  - destruct (SignalCandidate session text st) as [st' [err|]];
      cbv beta iota zeta delta [fst snd]; rewrite <- ?app_assoc;
      eexists; split; [reflexivity| |reflexivity|]; split; reflexivity.
  - rewrite <- ?app_assoc. eexists. split; [reflexivity|]. split; reflexivity.
  - eexists. split; [reflexivity|]. split; reflexivity.
Qed.

Lemma trickle_trace (session : Session) (candidates : list (option ICECandidate)) :
  forall w, exists evs,
    trace (snd (trickle session candidates w)) = trace w ++ evs /\
    signalCandidateCalls evs = flat_map (signalled session) candidates.
Proof.
  induction candidates as [|i rest IH]; intros w.
  - exists []. cbn. now rewrite app_nil_r.
  - destruct (onICECandidate_trace session i w) as (evs & Htr & _ & Hsig).
    cbn [trickle]. unfold bind.
    destruct (onICECandidate session i w) as [[] w1] eqn:E. cbn [snd] in *.
    destruct (IH w1) as (evs' & Htr' & Hsig').
    exists (evs ++ evs'). split.
    + now rewrite Htr', Htr, app_assoc.
    + rewrite signalCandidateCalls_app, Hsig, Hsig'. reflexivity.
Qed.

(** C8: when the JSON text of a candidate carries its address, a candidate
    whose serialization succeeds is passed to [SignalCandidate] once, as that
    text, which contains its address, and a refusal is logged as one warning;
    a candidate whose serialization fails is logged as one warning and not
    signalled; the nil candidate is never signalled; and over any run of
    candidate events each candidate is signalled or dropped on its own. *)
Theorem candidate_signalling (session : Session) (w : World) :
  json_carries_address ->
  (forall c text,
      json_Marshal (ToJSON c) = Ok text ->
      let evs := events_of (onICECandidate session (Some c)) w in
      signalCandidateCalls evs = [(session, text)] /\
      contains (Address c) text = true /\
      (snd (SignalCandidate session text (store w)) = None -> logs evs = []) /\
      (snd (SignalCandidate session text (store w)) <> None ->
       warnings evs = ["sending SignalCandidate failed"])) /\
  (forall c err,
      json_Marshal (ToJSON c) = Err err ->
      let evs := events_of (onICECandidate session (Some c)) w in
      signalCandidateCalls evs = [] /\
      warnings evs = ["converting ICECandidate to json failed"]) /\
  signalCandidateCalls (events_of (onICECandidate session None) w) = [] /\
  (forall candidates,
      signalCandidateCalls (events_of (trickle session candidates) w) =
      flat_map (signalled session) candidates).
Proof.
  intros Hjson. split; [|split; [|split]].
  - intros c text Hok. split; [|split; [now apply Hjson|]].
    + destruct w as [m st tr vars n]. go_run. rewrite Hok.
      cbv beta iota zeta delta [fst snd].
      destruct (SignalCandidate session text st) as [st' [err|]];
        cbv beta iota zeta delta [fst snd]; go_trace; reflexivity.
    + destruct w as [m st tr vars n]. go_run. rewrite Hok.
      cbv beta iota zeta delta [fst snd].
      destruct (SignalCandidate session text st) as [st' [err|]];
        cbv beta iota zeta delta [fst snd]; go_trace; split;
        first [reflexivity | discriminate | intros H; now elim H].
  - intros c err Herr. destruct w as [m st tr vars n]. go_run. rewrite Herr.
    cbv beta iota zeta delta [fst snd]. go_trace. split; reflexivity.
  - destruct w as [m st tr vars n]. go_run. go_trace. reflexivity.
  - intros candidates.
    destruct (trickle_trace session candidates w) as (evs & Htr & Hsig).
    unfold events_of. rewrite Htr, skipn_length_app. exact Hsig.
Qed.

(** ** Start and the frame consumers *)

Lemma createTrack_track_or_error (codecName : string) :
  let '(track, _, err) := createTrack codecName in
  err = None -> track <> None.
Proof.
  unfold createTrack. destruct (codecByName codecName) as [codec|].
  - destruct (NewTrackLocalStaticSample _ _ _); intros H; discriminate.
  - intros H; discriminate.
Qed.

(** When [Start] returns, both tracks are there. *)
Lemma Start_Started (w : World) :
  fst (Start w) = Returned tt -> Started (snd (Start w)).
Proof.
  destruct w as [m st tr vars n]. unfold Started.
  pose proof (createTrack_track_or_error AudioCodec) as Ha.
  pose proof (createTrack_track_or_error VideoCodec) as Hv.
  go_run.
  destruct (createTrack AudioCodec) as [[ta ca] [ea|]];
    cbv beta iota zeta delta [fst snd]; [discriminate|].
  destruct (createTrack VideoCodec) as [[tv cv] [ev|]];
    cbv beta iota zeta delta [fst snd]; [discriminate|].
  intros _. cbn. split; auto.
Qed.

(** A consumer is registered only once its track is there. *)
Lemma Start_registers_with_track (w : World) :
  (In EvOnAudioFrame (events_of Start w) ->
   audioTrack (manager (snd (Start w))) <> None) /\
  (In EvOnVideoFrame (events_of Start w) ->
   videoTrack (manager (snd (Start w))) <> None).
Proof.
  destruct w as [m st tr vars n].
  pose proof (createTrack_track_or_error AudioCodec) as Ha.
  pose proof (createTrack_track_or_error VideoCodec) as Hv.
  go_run.
  destruct (createTrack AudioCodec) as [[ta ca] [ea|]];
    cbv beta iota zeta delta [fst snd]; go_trace.
  - split; intros [H|[]]; discriminate H.
  - destruct (createTrack VideoCodec) as [[tv cv] [ev|]];
      cbv beta iota zeta delta [fst snd]; go_trace; cbn [audioTrack videoTrack setAudio setVideo].
    + split; [intros _; auto|]. intros [H|[H|[]]]; discriminate H.
    + split; intros _; auto.
Qed.

Lemma frameConsumer_runs
    (track : WebRTCManager -> option TrackLocalStaticSample) (failure : string)
    (t : TrackLocalStaticSample) (sample : Sample) (w : World) :
  track (manager w) = Some t ->
  exists evs,
    frameConsumer track failure sample w =
      (Returned tt,
       {| manager := manager w; store := store w; trace := trace w ++ evs;
          captured := captured w; declared := declared w |}) /\
    writeSampleCalls evs = [(t, sample)] /\
    logs evs =
      match WriteSample t sample with
      | Some err => if error_eqb err io_ErrClosedPipe then [] else [failure]
      | None => []
      end /\
    warnings evs = logs evs.
Proof.
  intros Ht. destruct w as [m st tr vars n]. go_run. rewrite Ht.
  cbv beta iota zeta delta [fst snd].
  destruct (WriteSample t sample) as [err|];
    [destruct (error_eqb err io_ErrClosedPipe)|]; cbn [negb];
    cbv beta iota zeta delta [fst snd]; rewrite <- ?app_assoc;
    eexists; (split; [reflexivity|]); repeat split.
Qed.

Lemma writeSampleCalls_app (l l' : list Event) :
  writeSampleCalls (l ++ l') = writeSampleCalls l ++ writeSampleCalls l'.
Proof. apply flat_map_app. Qed.

Lemma deliver_runs
    (track : WebRTCManager -> option TrackLocalStaticSample) (failure : string)
    (t : TrackLocalStaticSample) (samples : list Sample) :
  forall w,
    track (manager w) = Some t ->
    exists evs,
      deliver (frameConsumer track failure) samples w =
        (Returned tt,
         {| manager := manager w; store := store w; trace := trace w ++ evs;
          captured := captured w; declared := declared w |}) /\
      writeSampleCalls evs = map (pair t) samples.
Proof.
  induction samples as [|s rest IH]; intros w Ht.
  - exists []. destruct w as [m st tr vars n]. cbn. now rewrite app_nil_r.
  - destruct (frameConsumer_runs track failure t s w Ht) as (evs & Hrun & Hw & _).
    cbn [deliver]. unfold bind at 1. rewrite Hrun.
    destruct (IH {| manager := manager w; store := store w;
                    trace := trace w ++ evs;
          captured := captured w; declared := declared w |} Ht) as (evs' & Hrun' & Hw').
    exists (evs ++ evs'). split.
    + rewrite Hrun'. cbn [manager store trace]. now rewrite app_assoc.
    + rewrite writeSampleCalls_app, Hw, Hw'. reflexivity.
Qed.

(** C7: with its track there, as it is when [Start] registers the
    consumer, each of the two frame consumers writes the sample to its track
    and returns; a write that fails with the closed-pipe error logs nothing,
    a write that fails with any other error logs one warning and nothing
    else; the manager and the sessions are as before, and a run of samples
    is written sample by sample whatever the earlier writes answered. *)
Theorem frame_consumer_write_failures
    (consumer : Sample -> Go (outcome unit)) (sample : Sample) (w : World) :
  (consumer = audioFrameConsumer /\ audioTrack (manager w) <> None) \/
  (consumer = videoFrameConsumer /\ videoTrack (manager w) <> None) ->
  fst (consumer sample w) = Returned tt /\
  manager (snd (consumer sample w)) = manager w /\
  store (snd (consumer sample w)) = store w /\
  (exists t,
      writeSampleCalls (events_of (consumer sample) w) = [(t, sample)] /\
      (WriteSample t sample = Some io_ErrClosedPipe ->
       logs (events_of (consumer sample) w) = []) /\
      (forall err,
          WriteSample t sample = Some err -> err <> io_ErrClosedPipe ->
          length (warnings (events_of (consumer sample) w)) = 1 /\
          logs (events_of (consumer sample) w) =
            warnings (events_of (consumer sample) w)) /\
      (WriteSample t sample = None ->
       logs (events_of (consumer sample) w) = [])) /\
  (forall samples,
      fst (deliver consumer samples w) = Returned tt /\
      map snd (writeSampleCalls (events_of (deliver consumer samples) w)) = samples).
Proof.
  intros Hc.
  assert (exists track failure t,
             consumer = frameConsumer track failure /\ track (manager w) = Some t)
    as (track & failure & t & -> & Ht).
  { destruct Hc as [[-> Ha] | [-> Hv]].
    - destruct (audioTrack (manager w)) as [t|] eqn:E; [|now elim Ha].
      now exists audioTrack, "audio pipeline failed to write", t.
    - destruct (videoTrack (manager w)) as [t|] eqn:E; [|now elim Hv].
      now exists videoTrack, "video pipeline failed to write", t. }
  destruct (frameConsumer_runs track failure t sample w Ht)
    as (evs & Hrun & Hw & Hlog & Hwarn).
  unfold events_of. rewrite Hrun. cbn [fst snd manager store trace].
  rewrite skipn_length_app.
  split; [reflexivity|]. split; [reflexivity|]. split; [reflexivity|]. split.
  - exists t. split; [exact Hw|]. split; [|split].
    + intros E. rewrite Hlog, E. reflexivity.
    + intros err E Hne. rewrite Hwarn, Hlog, E.
      destruct (error_eqb err io_ErrClosedPipe) eqn:Eq.
      * apply error_eqb_eq in Eq. contradiction.
      * split; reflexivity.
    + intros E. rewrite Hlog, E. reflexivity.
  - intros samples.
    destruct (deliver_runs track failure t samples w Ht) as (evs' & Hrun' & Hw').
    rewrite Hrun'. cbn [fst snd trace]. rewrite skipn_length_app, Hw'.
    split; [reflexivity|]. rewrite map_map. cbn. apply map_id.
Qed.

(** ** The RTCP drain loops *)

Lemma rtcpBuf_length : length rtcpBuf = 1500.
Proof. unfold rtcpBuf. apply repeat_length. Qed.

(** A successful call starts one loop on the sender of each track. *)
Lemma CreatePeer_spawns_two_drains (id : string) (session : Session) (w : World) :
  forall r,
    fst (CreatePeer id session w) = Returned r ->
    errOf r = None ->
    exists c video audio rtpVideo rtpAudio,
      videoTrack (manager w) = Some video /\
      audioTrack (manager w) = Some audio /\
      AddTrack c video = Ok rtpVideo /\
      AddTrack c audio = Ok rtpAudio /\
      spawned (events_of (CreatePeer id session) w) = [rtpVideo; rtpAudio].
Proof.
  destruct w as [m st tr vars n]. go_run.
  repeat oracle; go_trace; returned; intros Hok; try discriminate.
  do 5 eexists. split; [reflexivity|]. split; [reflexivity|].
  split; [eassumption|]. split; [eassumption|]. reflexivity.
Qed.

(** Among reads of which one fails there is a first that fails. *)
Lemma first_failed_read (sender : RTPSender) (len n : nat) :
  forall k0,
    readErr (Read sender (k0 + n) len) <> None ->
    exists d,
      d <= n /\
      readErr (Read sender (k0 + d) len) <> None /\
      forall j, j < d -> readErr (Read sender (k0 + j) len) = None.
Proof.
  induction n as [|n IH]; intros k0 Hfail.
  - exists 0. split; [lia|]. split; [exact Hfail|]. intros j Hj. lia.
  - destruct (readErr (Read sender k0 len)) as [e|] eqn:E.
    + exists 0. split; [lia|]. split.
      * rewrite Nat.add_0_r, E. discriminate.
      * intros j Hj. lia.
    + destruct (IH (S k0)) as (d & Hle & Hd & Hbefore).
      { replace (S k0 + n) with (k0 + S n) by lia. exact Hfail. }
      exists (S d). split; [lia|]. split.
      * replace (k0 + S d) with (S k0 + d) by lia. exact Hd.
      * intros [|j] Hj.
        -- now rewrite Nat.add_0_r.
        -- replace (k0 + S j) with (S k0 + j) by lia. apply Hbefore. lia.
Qed.

Lemma rtcpDrain_returns (sender : RTPSender) (d : nat) :
  forall k0 w fuel,
    (forall j, j < d -> readErr (Read sender (k0 + j) (length rtcpBuf)) = None) ->
    readErr (Read sender (k0 + d) (length rtcpBuf)) <> None ->
    d < fuel ->
    rtcpDrain fuel sender k0 w =
      (Some tt,
       {| manager := manager w; store := store w;
          trace := trace w ++ repeat (EvRead sender (length rtcpBuf)) (S d);
          captured := captured w; declared := declared w |}).
Proof.
  induction d as [|d IH]; intros k0 w [|fuel] Hbefore Hfail Hfuel; try lia.
  - rewrite Nat.add_0_r in Hfail.
    cbn [rtcpDrain]. cbv beta iota zeta delta [bind ask emit ret].
    destruct (readErr (Read sender k0 (length rtcpBuf))); [reflexivity|now elim Hfail].
  - cbn [rtcpDrain]. cbv beta iota zeta delta [bind ask emit ret].
    pose proof (Hbefore 0 ltac:(lia)) as H0. rewrite Nat.add_0_r in H0. rewrite H0.
    rewrite (IH (S k0)); cbn [manager store trace].
    + rewrite <- app_assoc. reflexivity.
    + intros j Hj. replace (S k0 + j) with (k0 + S j) by lia. apply Hbefore. lia.
    + replace (S k0 + d) with (k0 + S d) by lia. exact Hfail.
    + lia.
Qed.

Lemma rtcpDrain_still_reading (sender : RTPSender) (fuel : nat) :
  forall k0 w,
    (forall j, j < fuel -> readErr (Read sender (k0 + j) (length rtcpBuf)) = None) ->
    fst (rtcpDrain fuel sender k0 w) = None.
Proof.
  induction fuel as [|fuel IH]; intros k0 w Hbefore; [reflexivity|].
  cbn [rtcpDrain]. cbv beta iota zeta delta [bind ask emit ret].
  pose proof (Hbefore 0 ltac:(lia)) as H0. rewrite Nat.add_0_r in H0. rewrite H0.
  apply IH. intros j Hj. replace (S k0 + j) with (k0 + S j) by lia.
  apply Hbefore. lia.
Qed.

Lemma logs_reads (sender : RTPSender) (len n : nat) :
  logs (repeat (EvRead sender len) n) = [].
Proof. induction n as [|n IH]; [reflexivity|exact IH]. Qed.

Lemma reads_reads (sender : RTPSender) (len n : nat) :
  reads (repeat (EvRead sender len) n) = repeat (sender, len) n.
Proof. induction n as [|n IH]; [reflexivity|]. cbn. now f_equal. Qed.

(** C9: a successful [CreatePeer] starts two drain loops, on the video and
    on the audio sender.  The buffer of a loop has 1500 bytes.  When some
    read of a sender fails, its loop reads up to the first read [k] that
    fails and returns there: with more than [k] iterations of fuel it has
    returned, having made [k + 1] reads into the buffer and nothing else, no
    log among them, and with [k] iterations or fewer it has not returned. *)
Theorem rtcpDrain_returns_at_first_failed_read (sender : RTPSender) (w : World) :
  (exists n, readErr (Read sender n (length rtcpBuf)) <> None) ->
  (forall id session w0 r,
      fst (CreatePeer id session w0) = Returned r ->
      errOf r = None ->
      exists c video audio rtpVideo rtpAudio,
        videoTrack (manager w0) = Some video /\
        audioTrack (manager w0) = Some audio /\
        AddTrack c video = Ok rtpVideo /\
        AddTrack c audio = Ok rtpAudio /\
        spawned (events_of (CreatePeer id session) w0) = [rtpVideo; rtpAudio]) /\
  length rtcpBuf = 1500 /\
  exists k,
    readErr (Read sender k (length rtcpBuf)) <> None /\
    (forall j, j < k -> readErr (Read sender j (length rtcpBuf)) = None) /\
    (forall fuel,
        k < fuel ->
        fst (rtcpDrain fuel sender 0 w) = Some tt /\
        manager (snd (rtcpDrain fuel sender 0 w)) = manager w /\
        store (snd (rtcpDrain fuel sender 0 w)) = store w /\
        events_of (rtcpDrain fuel sender 0) w =
          repeat (EvRead sender 1500) (S k) /\
        logs (events_of (rtcpDrain fuel sender 0) w) = []) /\
    (forall fuel, fuel <= k -> fst (rtcpDrain fuel sender 0 w) = None).
Proof.
  intros [n Hn]. split; [apply CreatePeer_spawns_two_drains|].
  split; [apply rtcpBuf_length|].
  destruct (first_failed_read sender (length rtcpBuf) n 0 Hn) as (k & _ & Hk & Hbefore).
  cbn [Nat.add] in Hk, Hbefore.
  exists k. split; [exact Hk|]. split; [exact Hbefore|]. split.
  - intros fuel Hfuel. unfold events_of.
    rewrite (rtcpDrain_returns sender k 0 w fuel Hbefore Hk Hfuel).
    cbn [fst snd manager store trace]. rewrite skipn_length_app, rtcpBuf_length.
    repeat split. apply logs_reads.
  - intros fuel Hfuel. apply rtcpDrain_still_reading.
    intros j Hj. apply Hbefore. lia.
Qed.

(** ** The codec table *)

Lemma not_in_table (name : string) :
  ~ In name (map fst specCodecTable) -> codecByName name = None.
Proof.
  intros Hnot. unfold codecByName.
  repeat match goal with
         | |- context [String.eqb name ?s] =>
             destruct (String.eqb_spec name s) as [->|_];
             [exfalso; apply Hnot; cbn; tauto|]
         end.
  reflexivity.
Qed.

(** C2, as the code has it: for each of the seven names of the table
    [createTrack] returns the parameters of its row, with an empty feedback
    list, and the track the engine makes for them (or the engine's error
    and no track); for every other name it returns no track, the zero codec
    and the error that reads unknown codec followed by the name. *)
Theorem createTrack_codec_table (name : string) :
  (forall row,
      In (name, row) specCodecTable ->
      exists codec,
        wireParameters codec = row /\
        RTCPFeedbacks (Capability codec) = [] /\
        createTrack name =
          match NewTrackLocalStaticSample (Capability codec) "stream" "stream" with
          | Ok track => (Some track, codec, None)
          | Err err => (None, codec, Some err)
          end) /\
  (~ In name (map fst specCodecTable) ->
   createTrack name =
     (None, zeroCodec, Some (errorString (String.append "unknown codec " name)))).
Proof.
  split.
  - intros row Hin. cbn [specCodecTable In] in Hin.
    repeat (destruct Hin as [Hin|Hin];
            [inversion Hin; subst; eexists;
             split; [|split]; [| |unfold createTrack; cbn [codecByName String.eqb Ascii.eqb Bool.eqb];
                                  cbv beta iota; reflexivity]; reflexivity|]).
    destruct Hin.
  - intros Hnot. unfold createTrack. now rewrite (not_in_table name Hnot).
Qed.

(** * Further properties of the package *)

(** ** createTrack and the codec table *)

Lemma codecByName_cases (name : string) (codec : RTPCodecParameters) :
  codecByName name = Some codec ->
  (name = "VP8" /\ codec = mkCodec "video/VP8" 90000 0 "" [] 96) \/
  (name = "VP9" /\ codec = mkCodec "video/VP9" 90000 0 "" [] 98) \/
  (name = "H264" /\
   codec = mkCodec "video/H264" 90000 0
             "level-asymmetry-allowed=1;packetization-mode=1;profile-level-id=42001f"
             [] 102) \/
  (name = "Opus" /\ codec = mkCodec "audio/opus" 48000 2 "" [] 111) \/
  (name = "G722" /\ codec = mkCodec "audio/G722" 8000 0 "" [] 9) \/
  (name = "PCMU" /\ codec = mkCodec "audio/PCMU" 8000 0 "" [] 0) \/
  (name = "PCMA" /\ codec = mkCodec "audio/PCMA" 8000 0 "" [] 8).
Proof.
  unfold codecByName.
  repeat match goal with
         | |- context [String.eqb name ?s] =>
             destruct (String.eqb_spec name s) as [->|_];
             [intros H; inversion H; tauto|]
         end.
  discriminate.
Qed.

Lemma codecByName_in_table (name : string) (codec : RTPCodecParameters) :
  codecByName name = Some codec ->
  In (name, wireParameters codec) specCodecTable.
Proof.
  intros H. apply codecByName_cases in H.
  repeat (destruct H as [[-> ->]|H]; [cbn; tauto|]).
  destruct H as [-> ->]. cbn. tauto.
Qed.

(** X1: [createTrack] returns a track exactly when it returns no error; the
    track is the one the engine made for the capability of the codec it
    returns, with id and stream id stream; and when the engine refuses a
    codec of the table, that codec is still returned, next to the engine's
    error. *)
Theorem createTrack_track_iff_no_error (name : string) :
  (snd (createTrack name) = None <-> fst (fst (createTrack name)) <> None) /\
  (forall track,
      fst (fst (createTrack name)) = Some track ->
      NewTrackLocalStaticSample
        (Capability (snd (fst (createTrack name)))) "stream" "stream" = Ok track) /\
  (forall codec err,
      codecByName name = Some codec ->
      NewTrackLocalStaticSample (Capability codec) "stream" "stream" = Err err ->
      createTrack name = (None, codec, Some err)).
Proof.
  unfold createTrack. destruct (codecByName name) as [codec|].
  - destruct (NewTrackLocalStaticSample (Capability codec) "stream" "stream")
      as [t|e] eqn:E; cbn [fst snd].
    + split; [split; intros _; [discriminate|reflexivity]|]. split.
      * intros track H. inversion H; subst. exact E.
      * intros codec' err H. inversion H; subst. rewrite E. discriminate.
    + split; [split; [discriminate|intros H; now elim H]|]. split.
      * discriminate.
      * intros codec' err H. inversion H; subst. rewrite E.
        intros H'. inversion H'. reflexivity.
  - cbn [fst snd]. split; [split; [discriminate|intros H; now elim H]|].
    split; discriminate.
Qed.

(** X2: in the table of [createTrack] a payload type or a mime type
    belongs to one codec name only, and every payload type fits the seven
    bits RTP gives it. *)
Theorem payload_type_identifies_codec
    (n1 n2 : string) (c1 c2 : RTPCodecParameters) :
  codecByName n1 = Some c1 ->
  codecByName n2 = Some c2 ->
  (0 <= PayloadType c1 < 128)%Z /\
  (PayloadType c1 = PayloadType c2 \/
   MimeType (Capability c1) = MimeType (Capability c2) ->
   n1 = n2 /\ c1 = c2).
Proof.
  intros H1 H2. apply codecByName_cases in H1. apply codecByName_cases in H2.
  repeat (destruct H1 as [[-> ->]|H1]); try destruct H1 as [-> ->];
    (split; [cbn; lia|]);
    repeat (destruct H2 as [[-> ->]|H2]); try destruct H2 as [-> ->];
    cbn; intros [H|H]; first [discriminate H | split; reflexivity].
Qed.

(** ** Start *)

(** What [Start] leaves behind when it returns. *)
Lemma Start_returns (w : World) :
  fst (Start w) = Returned tt ->
  exists ca cv ta tv,
    codecByName AudioCodec = Some ca /\
    codecByName VideoCodec = Some cv /\
    NewTrackLocalStaticSample (Capability ca) "stream" "stream" = Ok ta /\
    NewTrackLocalStaticSample (Capability cv) "stream" "stream" = Ok tv /\
    snd (Start w) =
      {| manager := {| videoTrack := Some tv; audioTrack := Some ta;
                       videoCodec := cv; audioCodec := ca;
                       config := config (manager w) |};
         store := store w;
         trace := trace w ++
           [EvOnAudioFrame; EvOnVideoFrame;
            EvLog InfoLevel
              [("ice_lite", Sprintf_t (ICELite (config (manager w))));
               ("ice_servers", Sprintf_v (cfgICEServers (config (manager w))));
               ("ephemeral_port_range",
                Sprintf_d_d (EphemeralMin (config (manager w)))
                  (EphemeralMax (config (manager w))));
               ("nat_ips", String.concat "," (NAT1To1IPs (config (manager w))))]
              None "webrtc starting"];
          captured := captured w; declared := declared w |}.
Proof.
  destruct w as [m st tr vars n]. go_run. unfold createTrack.
  destruct (codecByName AudioCodec) as [ca|] eqn:Ha;
    [|cbv beta iota zeta delta [fst snd]; discriminate].
  destruct (NewTrackLocalStaticSample (Capability ca) "stream" "stream")
    as [ta|ea] eqn:Hta;
    cbv beta iota zeta delta [fst snd]; [|discriminate].
  destruct (codecByName VideoCodec) as [cv|] eqn:Hv;
    [|cbv beta iota zeta delta [fst snd]; discriminate].
  destruct (NewTrackLocalStaticSample (Capability cv) "stream" "stream")
    as [tv|ev] eqn:Htv;
    cbv beta iota zeta delta [fst snd]; [|discriminate].
  intros _. exists ca, cv, ta, tv. repeat (split; [assumption || reflexivity|]).
  rewrite <- !app_assoc. reflexivity.
Qed.

(** X3: [Start] returns exactly when both tracks can be created.  When
    the audio track cannot, it panics after one panic-level log carrying the
    error, with no consumer registered; when only the video track cannot,
    the audio consumer is already registered and the video consumer is not.
    Either way the sessions are untouched. *)
Theorem Start_panics_on_track_failure (w : World) :
  (fst (Start w) = Returned tt <->
   snd (createTrack AudioCodec) = None /\ snd (createTrack VideoCodec) = None) /\
  (forall err,
      snd (createTrack AudioCodec) = Some err ->
      fst (Start w) = Panicked /\
      events_of Start w =
        [EvLog PanicLevel [] (Some err) "unable to create audio track"] /\
      store (snd (Start w)) = store w) /\
  (forall err,
      snd (createTrack AudioCodec) = None ->
      snd (createTrack VideoCodec) = Some err ->
      fst (Start w) = Panicked /\
      events_of Start w =
        [EvOnAudioFrame;
         EvLog PanicLevel [] (Some err) "unable to create video track"] /\
      store (snd (Start w)) = store w).
Proof.
  destruct w as [m st tr vars n]. go_run.
  destruct (createTrack AudioCodec) as [[ta ca] [ea|]];
    destruct (createTrack VideoCodec) as [[tv cv] [ev|]];
    cbv beta iota zeta delta [fst snd]; go_trace;
    (split; [split; [try discriminate; auto|intros [? ?]; try discriminate; auto]|]);
    split; intros err; try discriminate;
    try (intros H; inversion H; subst; repeat split; reflexivity);
    try (intros _ H; inversion H; subst; repeat split; reflexivity);
    intros _; discriminate.
Qed.

(** X4: when [Start] returns, the manager holds the codecs of the table
    for the producer's audio and video codec names and the tracks the engine
    made for them, its configuration and the sessions are as before, the
    audio consumer was registered before the video consumer, each once, and
    the only log is the starting message. *)
Theorem Start_success (w : World) :
  fst (Start w) = Returned tt ->
  exists ca cv ta tv,
    In (AudioCodec, wireParameters ca) specCodecTable /\
    In (VideoCodec, wireParameters cv) specCodecTable /\
    NewTrackLocalStaticSample (Capability ca) "stream" "stream" = Ok ta /\
    NewTrackLocalStaticSample (Capability cv) "stream" "stream" = Ok tv /\
    manager (snd (Start w)) =
      {| videoTrack := Some tv; audioTrack := Some ta;
         videoCodec := cv; audioCodec := ca; config := config (manager w) |} /\
    store (snd (Start w)) = store w /\
    consumersRegistered (events_of Start w) = [EvOnAudioFrame; EvOnVideoFrame] /\
    logs (events_of Start w) = ["webrtc starting"].
Proof.
  intros Hret.
  destruct (Start_returns w Hret) as (ca & cv & ta & tv & Ha & Hv & Hta & Htv & Hw).
  exists ca, cv, ta, tv. unfold events_of. rewrite Hw. cbn [manager store trace].
  rewrite skipn_length_app.
  split; [now apply codecByName_in_table|].
  split; [now apply codecByName_in_table|].
  repeat (split; [assumption || reflexivity|]). reflexivity.
Qed.

(** ** CreatePeer, further *)

(** The calls a successful [CreatePeer] makes on the engine and on the
    session, all on the one connection it built. *)
Lemma CreatePeer_success_calls (id : string) (session : Session) (w : World) :
  forall r,
    fst (CreatePeer id session w) = Returned r ->
    errOf r = None ->
    exists c d,
      NewPeerConnection (apiFor (manager w))
        (configurationFor (config (manager w))) = Ok c /\
      CreateOffer c = Ok d /\
      offerOf r = SDP d /\
      videoTrack (manager w) <> None /\
      audioTrack (manager w) <> None /\
      interceptorCalls (events_of (CreatePeer id session) w) =
        [(engineFor (manager w), emptyRegistry)] /\
      connectionsBuilt (events_of (CreatePeer id session) w) =
        [(apiFor (manager w), configurationFor (config (manager w)))] /\
      dataChannelCalls (events_of (CreatePeer id session) w) =
        [(c, "data", dataChannelInit)] /\
      addTrackCalls (events_of (CreatePeer id session) w) =
        [(c, videoTrack (manager w)); (c, audioTrack (manager w))] /\
      localDescriptions (events_of (CreatePeer id session) w) = [d] /\
      registrations (events_of (CreatePeer id session) w) =
        [(c, DataChannelCallback id (declared w));
         (c, ICEConnectionStateCallback);
         (c, ConnectionStateCallback id session (declared w));
         (c, ICECandidateCallback session)] /\
      setPeerCalls (events_of (CreatePeer id session) w) =
        [(session, peerFor id (manager w) c)].
Proof.
  destruct w as [m st tr vars n]. go_run.
  repeat oracle; go_trace; returned; intros Hok; try discriminate.
  do 2 eexists. split; [reflexivity|]. split; [eassumption|].
  split; [reflexivity|]. split; [discriminate|]. split; [discriminate|].
  repeat (split; [reflexivity|]). reflexivity.
Qed.

(** The engine, the connection and the tracks of any [CreatePeer], failed
    or not. *)
Lemma CreatePeer_any_calls (id : string) (session : Session) (w : World) :
  (forall engine i,
      In (engine, i) (interceptorCalls (events_of (CreatePeer id session) w)) ->
      engine = engineFor (manager w) /\ i = emptyRegistry) /\
  (forall api cfg,
      In (api, cfg) (connectionsBuilt (events_of (CreatePeer id session) w)) ->
      api = apiFor (manager w) /\ cfg = configurationFor (config (manager w))) /\
  (forall c t,
      In (c, t) (addTrackCalls (events_of (CreatePeer id session) w)) ->
      t = videoTrack (manager w) \/ t = audioTrack (manager w)).
Proof.
  destruct w as [m st tr vars n]. go_run.
  repeat oracle; go_trace;
    cbn [interceptorCalls connectionsBuilt addTrackCalls flat_map app In];
    (split; [intros ? ? Hin|split; [intros ? ? Hin|intros ? ? Hin]]);
    repeat (destruct Hin as [Hin|Hin]; [inversion Hin; subst; auto|]);
    destruct Hin.
Qed.

(** [CreatePeer] panics only on a nil track. *)
Lemma CreatePeer_panics_on_nil_track (id : string) (session : Session) (w : World) :
  fst (CreatePeer id session w) = Panicked -> ~ Started w.
Proof.
  unfold Started. destruct w as [m st tr vars n]. go_run.
  repeat oracle; intros Hp [Ha Hv]; try discriminate; congruence.
Qed.

(** With both tracks there, as after [Start], [CreatePeer] returns. *)
Lemma CreatePeer_returns_when_started (id : string) (session : Session) (w : World) :
  Started w -> exists r, fst (CreatePeer id session w) = Returned r.
Proof.
  intros Hstarted. destruct (fst (CreatePeer id session w)) as [r|] eqn:E.
  - now exists r.
  - now elim (CreatePeer_panics_on_nil_track id session w E).
Qed.

(** X5: after a [Start] that returned, the media engine [CreatePeer]
    hands to [RegisterDefaultInterceptors] holds the table codecs of the
    producer's two codec names, audio first, and nothing else, next to an
    empty registry; every connection is built with the engine and the
    registry as that call left them; every track added is one of the two
    tracks [Start] created; and these are the tracks the two frame
    consumers write to. *)
Theorem started_manager_feeds_every_peer
    (id : string) (session : Session) (sample : Sample) (w : World) :
  fst (Start w) = Returned tt ->
  exists ca cv ta tv,
    In (AudioCodec, wireParameters ca) specCodecTable /\
    In (VideoCodec, wireParameters cv) specCodecTable /\
    (forall engine i,
        In (engine, i)
          (interceptorCalls (events_of (CreatePeer id session) (snd (Start w)))) ->
        engine = [(ca, RTPCodecTypeAudio); (cv, RTPCodecTypeVideo)] /\
        i = emptyRegistry) /\
    (forall api cfg,
        In (api, cfg)
          (connectionsBuilt (events_of (CreatePeer id session) (snd (Start w)))) ->
        apiMediaEngine api =
          fst (fst (RegisterDefaultInterceptors
                      [(ca, RTPCodecTypeAudio); (cv, RTPCodecTypeVideo)]
                      emptyRegistry)) /\
        apiInterceptorRegistry api =
          snd (fst (RegisterDefaultInterceptors
                      [(ca, RTPCodecTypeAudio); (cv, RTPCodecTypeVideo)]
                      emptyRegistry))) /\
    (forall c t,
        In (c, t)
          (addTrackCalls (events_of (CreatePeer id session) (snd (Start w)))) ->
        t = Some tv \/ t = Some ta) /\
    writeSampleCalls (events_of (audioFrameConsumer sample) (snd (Start w))) =
      [(ta, sample)] /\
    writeSampleCalls (events_of (videoFrameConsumer sample) (snd (Start w))) =
      [(tv, sample)].
Proof.
  intros Hret.
  destruct (Start_returns w Hret) as (ca & cv & ta & tv & Ha & Hv & Hta & Htv & Hw).
  exists ca, cv, ta, tv.
  split; [now apply codecByName_in_table|].
  split; [now apply codecByName_in_table|].
  destruct (CreatePeer_any_calls id session (snd (Start w)))
    as (Hengine & Hconn & Htracks).
  assert (Hm : manager (snd (Start w)) =
               {| videoTrack := Some tv; audioTrack := Some ta;
                  videoCodec := cv; audioCodec := ca;
                  config := config (manager w) |}) by now rewrite Hw.
  clear Hw. rewrite Hm in Hengine, Hconn, Htracks.
  cbn [videoTrack audioTrack] in Htracks.
  split; [|split; [|split; [|split]]].
  - intros engine i Hin. destruct (Hengine engine i Hin) as [-> ->].
    split; reflexivity.
  - intros api cfg Hin. destruct (Hconn api cfg Hin) as [-> _].
    split; reflexivity.
  - exact Htracks.
  - assert (Ht : audioTrack (manager (snd (Start w))) = Some ta) by now rewrite Hm.
    destruct (frameConsumer_runs audioTrack "audio pipeline failed to write"
                ta sample _ Ht) as (evs & Hrun & Hwrite & _).
    unfold events_of, audioFrameConsumer. rewrite Hrun. cbn [snd trace].
    now rewrite skipn_length_app.
  - assert (Ht : videoTrack (manager (snd (Start w))) = Some tv) by now rewrite Hm.
    destruct (frameConsumer_runs videoTrack "video pipeline failed to write"
                tv sample _ Ht) as (evs & Hrun & Hwrite & _).
    unfold events_of, videoFrameConsumer. rewrite Hrun. cbn [snd trace].
    now rewrite skipn_length_app.
Qed.

(** X6: the setting engine of a connection is lite exactly when ICE-lite
    is configured; without ICE-lite every connection is built with the
    configured ICE server list, which is also the list returned, next to a
    false flag. *)
Theorem CreatePeer_full_ice (id : string) (session : Session) (w : World) :
  (forall api cfg,
      In (api, cfg) (connectionsBuilt (events_of (CreatePeer id session) w)) ->
      (In (SetLite true) (apiSettingEngine api) <->
       ICELite (config (manager w)) = true)) /\
  (ICELite (config (manager w)) = false ->
   (forall servers,
       In servers (appliedICEServers (events_of (CreatePeer id session) w)) ->
       servers = cfgICEServers (config (manager w))) /\
   (forall r,
       fst (CreatePeer id session w) = Returned r ->
       (errOf r = None ->
        appliedICEServers (events_of (CreatePeer id session) w) = [serversOf r]) /\
       liteOf r = false)).
Proof.
  split.
  - intros api cfg Hin.
    destruct (proj1 (proj2 (CreatePeer_any_calls id session w)) api cfg Hin)
      as [-> _].
    unfold apiFor, settingsFor. cbn [apiSettingEngine].
    destruct (ICELite (config (manager w))); cbn; split; intros H.
    + reflexivity.
    + left. reflexivity.
    + repeat (destruct H as [H|H]; [discriminate H|]). destruct H.
    + discriminate H.
  - intros Hfull.
    assert (Hcfg : configurationFor (config (manager w)) =
                   {| ICEServers := cfgICEServers (config (manager w));
                      Semantics := SDPSemanticsUnifiedPlanWithFallback |})
      by (unfold configurationFor; now rewrite Hfull).
    destruct w as [m st tr vars n]. go_run. rewrite Hcfg in *.
    repeat oracle; go_trace; cbn [appliedICEServers flat_map app ICEServers];
      (split;
       [ first [intros servers [<-|[]]; reflexivity | intros servers []]
       | returned; split;
         first [ assumption | reflexivity
               | intros Hok; first [discriminate Hok | reflexivity] ] ]).
Qed.

(** X7: a successful [CreatePeer] builds one connection; on that
    connection it creates the channel called data, negotiated beforehand,
    adds the video track and then the audio track, neither of them nil,
    takes the offer it returns and sets it as local description, and
    registers, in this order, the message callback, the ICE state callback,
    the state callback and the candidate callback of this viewer, the first
    and the third on the [err] of this call; the peer it hands to the
    session carries the viewer's id, that connection and the configuration
    the connection was built with. *)
Theorem CreatePeer_success_wiring (id : string) (session : Session) (w : World) :
  forall r,
    fst (CreatePeer id session w) = Returned r ->
    errOf r = None ->
    exists c d peer cfg,
      connectionsBuilt (events_of (CreatePeer id session) w) = [(peerApi peer, cfg)] /\
      NewPeerConnection (peerApi peer) cfg = Ok c /\
      dataChannelCalls (events_of (CreatePeer id session) w) =
        [(c, "data", {| Negotiated := Some true |})] /\
      videoTrack (manager w) <> None /\
      audioTrack (manager w) <> None /\
      addTrackCalls (events_of (CreatePeer id session) w) =
        [(c, videoTrack (manager w)); (c, audioTrack (manager w))] /\
      CreateOffer c = Ok d /\
      localDescriptions (events_of (CreatePeer id session) w) = [d] /\
      offerOf r = SDP d /\
      registrations (events_of (CreatePeer id session) w) =
        [(c, DataChannelCallback id (declared w));
         (c, ICEConnectionStateCallback);
         (c, ConnectionStateCallback id session (declared w));
         (c, ICECandidateCallback session)] /\
      setPeerCalls (events_of (CreatePeer id session) w) = [(session, peer)] /\
      peerId peer = id /\
      peerConnection peer = c /\
      peerConfiguration peer = cfg /\
      peerEngine peer = apiMediaEngine (peerApi peer) /\
      peerSettings peer = apiSettingEngine (peerApi peer).
Proof.
  intros r Hr Hok.
  destruct (CreatePeer_success_calls id session w r Hr Hok)
    as (c & d & Hc & Hd & Hoffer & Hv & Ha & _ & Hconn & Hdata & Htracks
        & Hlocal & Hreg & Hpeer).
  exists c, d, (peerFor id (manager w) c), (configurationFor (config (manager w))).
  rewrite Hconn, Hdata, Htracks, Hlocal, Hreg, Hpeer, Hoffer.
  cbn [peerFor peerApi peerId peerConnection peerConfiguration peerEngine
       peerSettings apiFor apiMediaEngine apiSettingEngine].
  repeat (split; [assumption || reflexivity|]). reflexivity.
Qed.

(** X8: whether it succeeds or fails, [CreatePeer] logs nothing, destroys
    no session, marks none connected, signals no candidate, writes no
    sample and reads from no sender; it builds at most one connection,
    makes at most one [SetPeer] call and leaves the manager as it was. *)
Theorem CreatePeer_calls_nothing_else (id : string) (session : Session) (w : World) :
  logs (events_of (CreatePeer id session) w) = [] /\
  destroyCalls (events_of (CreatePeer id session) w) = [] /\
  setConnectedCalls (events_of (CreatePeer id session) w) = [] /\
  signalCandidateCalls (events_of (CreatePeer id session) w) = [] /\
  writeSampleCalls (events_of (CreatePeer id session) w) = [] /\
  reads (events_of (CreatePeer id session) w) = [] /\
  length (connectionsBuilt (events_of (CreatePeer id session) w)) <= 1 /\
  length (setPeerCalls (events_of (CreatePeer id session) w)) <= 1 /\
  manager (snd (CreatePeer id session w)) = manager w.
Proof.
  destruct w as [m st tr vars n]. go_run.
  repeat oracle; go_trace; cbn; repeat split; lia.
Qed.

(** A step that fails makes the call return its error. *)
Lemma FailsAt_error
    (id : string) (session : Session) (w : World) (step : Step) (err : error) :
  FailsAt id session w step err ->
  fst (CreatePeer id session w) =
    Returned ("", ICELite (config (manager w)),
              cfgICEServers (config (manager w)), Some err).
Proof.
  intros Hfail. destruct w as [m st tr vars n].
  inversion Hfail; subst; cbn [manager store] in *;
    try (go_run; answers; reflexivity).
  go_run. answers.
  destruct (SetPeer session (peerFor id m c) st) as [st' r] eqn:E.
  cbv beta iota zeta delta [fst snd] in *. now subst r.
Qed.

(** X9: [CreatePeer] returns an error exactly when one of its eight steps
    fails after the steps before it succeeded, and the error is that step's;
    it returns without error exactly when no step fails and it does not
    panic; and it panics only on a manager that lacks a track. *)
Theorem CreatePeer_succeeds_iff_no_step_fails
    (id : string) (session : Session) (w : World) :
  (forall err,
      (exists r, fst (CreatePeer id session w) = Returned r /\ errOf r = Some err) <->
      exists step, FailsAt id session w step err) /\
  ((exists r, fst (CreatePeer id session w) = Returned r /\ errOf r = None) <->
   (forall step err, ~ FailsAt id session w step err) /\
   fst (CreatePeer id session w) <> Panicked) /\
  (fst (CreatePeer id session w) = Panicked -> ~ Started w).
Proof.
  split; [|split].
  - intros err. split.
    + intros (r & Hr & Herr).
      exact (CreatePeer_error_comes_from_a_step id session w err r Hr Herr).
    + intros [step Hfail]. apply FailsAt_error in Hfail.
      eexists. split; [exact Hfail|reflexivity].
  - split.
    + intros (r & Hr & Hok). split.
      * intros step err Hfail. apply FailsAt_error in Hfail.
        rewrite Hfail in Hr. inversion Hr; subst. discriminate Hok.
      * rewrite Hr. discriminate.
    + intros [Hnone Hnp].
      destruct (fst (CreatePeer id session w)) as [r|] eqn:Er; [|now elim Hnp].
      exists r. split; [reflexivity|].
      destruct (errOf r) as [err|] eqn:E; [|reflexivity].
      destruct (CreatePeer_error_comes_from_a_step id session w err r Er E)
        as [step Hfail].
      now elim (Hnone step err).
  - apply CreatePeer_panics_on_nil_track.
Qed.

(** The tracks a successful call adds. *)
Lemma CreatePeer_tracks_added (id : string) (session : Session) (w : World) :
  forall r,
    fst (CreatePeer id session w) = Returned r ->
    errOf r = None ->
    map snd (addTrackCalls (events_of (CreatePeer id session) w)) =
      [videoTrack (manager w); audioTrack (manager w)] /\
    connectionsBuilt (events_of (CreatePeer id session) w) =
      [(apiFor (manager w), configurationFor (config (manager w)))].
Proof.
  intros r Hr Hok.
  destruct (CreatePeer_success_calls id session w r Hr Hok)
    as (c & d & _ & _ & _ & _ & _ & _ & Hconn & _ & Htracks & _).
  rewrite Htracks, Hconn. split; reflexivity.
Qed.

(** X10: two viewers share the tracks.  When [CreatePeer] succeeds for a
    first viewer and then for a second, both connections are built with the
    same media engine and configuration, the same two tracks are added to
    both, and both calls return the same flag and server list. *)
Theorem CreatePeer_twice_shares_tracks
    (id1 id2 : string) (s1 s2 : Session) (w : World) :
  forall r1 r2,
    fst (CreatePeer id1 s1 w) = Returned r1 ->
    errOf r1 = None ->
    fst (CreatePeer id2 s2 (snd (CreatePeer id1 s1 w))) = Returned r2 ->
    errOf r2 = None ->
    map snd (addTrackCalls (events_of (CreatePeer id1 s1) w)) =
      [videoTrack (manager w); audioTrack (manager w)] /\
    map snd (addTrackCalls
               (events_of (CreatePeer id2 s2) (snd (CreatePeer id1 s1 w)))) =
      map snd (addTrackCalls (events_of (CreatePeer id1 s1) w)) /\
    connectionsBuilt (events_of (CreatePeer id2 s2) (snd (CreatePeer id1 s1 w))) =
      connectionsBuilt (events_of (CreatePeer id1 s1) w) /\
    liteOf r2 = liteOf r1 /\
    serversOf r2 = serversOf r1.
Proof.
  intros r1 r2 Hr1 H1 Hr2 H2.
  destruct (CreatePeer_tracks_added id1 s1 w r1 Hr1 H1) as [Htr1 Hconn1].
  destruct (CreatePeer_tracks_added id2 s2 _ r2 Hr2 H2) as [Htr2 Hconn2].
  destruct (CreatePeer_flag_and_servers id1 s1 w r1 Hr1) as [Hl1 Hs1].
  destruct (CreatePeer_flag_and_servers id2 s2 _ r2 Hr2) as [Hl2 Hs2].
  rewrite Htr1, Htr2, Hconn1, Hconn2, Hl1, Hl2, Hs1, Hs2.
  rewrite !CreatePeer_keeps_manager. repeat split.
Qed.

(** ** Runs of the callbacks *)

Lemma destroyCalls_app (l l' : list Event) :
  destroyCalls (l ++ l') = destroyCalls l ++ destroyCalls l'.
Proof. apply flat_map_app. Qed.

Lemma setConnectedCalls_app (l l' : list Event) :
  setConnectedCalls (l ++ l') = setConnectedCalls l ++ setConnectedCalls l'.
Proof. apply flat_map_app. Qed.

Lemma handleCalls_app (l l' : list Event) :
  handleCalls (l ++ l') = handleCalls l ++ handleCalls l'.
Proof. apply flat_map_app. Qed.

Lemma warnings_app (l l' : list Event) : warnings (l ++ l') = warnings l ++ warnings l'.
Proof. apply flat_map_app. Qed.

Lemma logs_app (l l' : list Event) : logs (l ++ l') = logs l ++ logs l'.
Proof. apply flat_map_app. Qed.

Lemma onConnectionStateChange_trace
    (id : string) (session : Session) (err : ErrVar)
    (st : PeerConnectionState) (w : World) :
  exists evs k,
    trace (snd (onConnectionStateChange id session err st w)) = trace w ++ evs /\
    manager (snd (onConnectionStateChange id session err st w)) = manager w /\
    setConnectedCalls evs = (if isConnected st then [(session, true)] else []) /\
    destroyCalls evs = repeat id k /\
    (if isTerminal st then 1 else 0) <= k /\
    k <= (if isTerminal st then 1 else 0) + (if isConnected st then 1 else 0).
Proof.
  destruct w as [m s0 tr vars n]. destruct st; go_run.
  - exists [], 0. rewrite app_nil_r. cbn. repeat split; lia.
  - exists [], 0. rewrite app_nil_r. cbn. repeat split; lia.
  - destruct (SetConnected session true s0) as [s1 [e|]];
      cbv beta iota zeta delta [fst snd]; rewrite assigned_same.
    + destruct (Destroy id s1) as [s2 r]. rewrite <- ?app_assoc. cbn [app].
      eexists. exists 1. split; [reflexivity|]. cbn. repeat split; lia.
    + rewrite <- ?app_assoc. cbn [app].
      eexists. exists 0. split; [reflexivity|]. cbn. repeat split; lia.
  - destruct (Destroy id s0) as [s1 r]. rewrite <- ?app_assoc. cbn [app].
    eexists. exists 1. split; [reflexivity|]. cbn. repeat split; lia.
  - destruct (Destroy id s0) as [s1 r]. rewrite <- ?app_assoc. cbn [app].
    eexists. exists 1. split; [reflexivity|]. cbn. repeat split; lia.
  - destruct (Destroy id s0) as [s1 r]. rewrite <- ?app_assoc. cbn [app].
    eexists. exists 1. split; [reflexivity|]. cbn. repeat split; lia.
Qed.

Lemma transitions_trace
    (id : string) (session : Session) (err : ErrVar)
    (states : list PeerConnectionState) :
  forall w, exists evs k,
    trace (snd (transitions id session err states w)) = trace w ++ evs /\
    manager (snd (transitions id session err states w)) = manager w /\
    setConnectedCalls evs =
      repeat (session, true) (length (filter isConnected states)) /\
    destroyCalls evs = repeat id k /\
    length (filter isTerminal states) <= k /\
    k <= length (filter isTerminal states) + length (filter isConnected states).
Proof.
  induction states as [|st rest IH]; intros w.
  - exists [], 0. cbn. rewrite app_nil_r. repeat split; lia.
  - destruct (onConnectionStateChange_trace id session err st w)
      as (evs & k & Htr & Hm & Hset & Hdes & Hlo & Hhi).
    cbn [transitions]. unfold bind.
    destruct (onConnectionStateChange id session err st w) as [[] w1].
    cbn [snd] in *.
    destruct (IH w1) as (evs' & k' & Htr' & Hm' & Hset' & Hdes' & Hlo' & Hhi').
    exists (evs ++ evs'), (k + k').
    split; [now rewrite Htr', Htr, app_assoc|].
    split; [now rewrite Hm', Hm|].
    split.
    { rewrite setConnectedCalls_app, Hset, Hset'. cbn [filter].
      destruct (isConnected st); reflexivity. }
    split; [now rewrite destroyCalls_app, Hdes, Hdes', repeat_app|].
    cbn [filter]. destruct (isTerminal st), (isConnected st); cbn [length] in *; lia.
Qed.

(** X11: over any run of state changes, the state callback of a viewer
    destroys no session but that viewer's; it calls [SetConnected(true)] on
    its session once per change to connected; it calls [Destroy] at least
    once per change to disconnected, failed or closed and at most once more
    per change to connected; and it leaves the manager as it was. *)
Theorem transitions_destroy_only_own_session
    (id : string) (session : Session) (err : ErrVar)
    (states : list PeerConnectionState) (w : World) :
  setConnectedCalls (events_of (transitions id session err states) w) =
    repeat (session, true) (length (filter isConnected states)) /\
  (exists k,
      destroyCalls (events_of (transitions id session err states) w) = repeat id k /\
      length (filter isTerminal states) <= k /\
      k <= length (filter isTerminal states) + length (filter isConnected states)) /\
  manager (snd (transitions id session err states w)) = manager w.
Proof.
  destruct (transitions_trace id session err states w)
    as (evs & k & Htr & Hm & Hset & Hdes & Hlo & Hhi).
  unfold events_of. rewrite Htr, skipn_length_app.
  split; [exact Hset|]. split; [|exact Hm]. exists k. auto.
Qed.

(** One message, with what happens to [err] meanwhile. *)
Lemma messageAmid_trace
    (id : string) (err : ErrVar) (msg : DataChannelMessage)
    (other : option (option error)) (w : World) :
  exists evs,
    trace (snd (messageAmid id err msg other w)) = trace w ++ evs /\
    manager (snd (messageAmid id err msg other w)) = manager w /\
    store (snd (messageAmid id err msg other w)) = store w /\
    handleCalls evs = [(id, msg)] /\
    logs evs = warnings evs /\
    length (warnings evs) <= 1 /\
    destroyCalls evs = [] /\
    (other = None -> length (warnings evs) = length (refusedMessages id [msg])).
Proof.
  destruct w as [m st tr vars n]. unfold refusedMessages. go_run. cbn [filter].
  destruct other as [[e|]|]; rewrite ?assigned_same; cbv beta iota zeta;
    try (destruct (handle id msg)); cbv beta iota zeta;
    rewrite <- ?app_assoc; cbn [app];
    eexists; (split; [reflexivity|]); cbn; repeat split; try lia; discriminate.
Qed.

Lemma receiveAmid_trace
    (id : string) (err : ErrVar)
    (msgs : list (DataChannelMessage * option (option error))) :
  forall w, exists evs,
    trace (snd (receiveAmid id err msgs w)) = trace w ++ evs /\
    manager (snd (receiveAmid id err msgs w)) = manager w /\
    store (snd (receiveAmid id err msgs w)) = store w /\
    handleCalls evs = map (pair id) (map fst msgs) /\
    logs evs = warnings evs /\
    length (warnings evs) <= length msgs /\
    destroyCalls evs = [] /\
    (Forall (fun entry => snd entry = None) msgs ->
     length (warnings evs) = length (refusedMessages id (map fst msgs))).
Proof.
  induction msgs as [|[msg other] rest IH]; intros w.
  - exists []. cbn. rewrite app_nil_r. repeat split; lia.
  - destruct (messageAmid_trace id err msg other w)
      as (evs & Htr & Hm & Hs & Hh & Hl & Hw & Hd & Hq).
    cbn [receiveAmid]. unfold bind.
    destruct (messageAmid id err msg other w) as [[] w1]. cbn [snd] in *.
    destruct (IH w1) as (evs' & Htr' & Hm' & Hs' & Hh' & Hl' & Hw' & Hd' & Hq').
    exists (evs ++ evs').
    split; [now rewrite Htr', Htr, app_assoc|].
    split; [now rewrite Hm', Hm|].
    split; [now rewrite Hs', Hs|].
    split; [now rewrite handleCalls_app, Hh, Hh'|].
    split; [now rewrite logs_app, warnings_app, Hl, Hl'|].
    split; [rewrite warnings_app, length_app; cbn [length]; lia|].
    split; [now rewrite destroyCalls_app, Hd, Hd'|].
    intros Hquiet. inversion Hquiet as [|x l Hx Hrest]; subst. cbn [snd] in Hx.
    rewrite warnings_app, length_app, (Hq Hx), (Hq' Hrest).
    unfold refusedMessages. cbn [map fst filter].
    destruct (handle id msg); reflexivity.
Qed.

(** A delivery with nothing in between is the delivery to the closure run
    on its own. *)
Lemma receive_quiet (id : string) (err : ErrVar) (msgs : list DataChannelMessage) :
  forall w,
    receiveAmid id err (map (fun msg => (msg, None)) msgs) w = receive id err msgs w.
Proof.
  induction msgs as [|msg rest IH]; intros w; [reflexivity|].
  cbn [map receiveAmid receive]. unfold bind.
  change (messageAmid id err msg None w) with (onDataChannelMessage id err msg w).
  destruct (onDataChannelMessage id err msg w) as [[] w1]. apply IH.
Qed.

(** X12: over any run of data channel messages, whatever another closure
    of the call does to [err] meanwhile, each message is handed to the
    handler once, with the viewer's id and in order; each message costs at
    most one warning and nothing else is logged; no session is destroyed,
    and the manager and the sessions are as before.  When nothing happens to
    [err] in between, as when the closure runs on its own, the warnings are
    as many as the messages the handler refused. *)
Theorem receive_handles_every_message
    (id : string) (err : ErrVar)
    (msgs : list (DataChannelMessage * option (option error))) (w : World) :
  handleCalls (events_of (receiveAmid id err msgs) w) =
    map (pair id) (map fst msgs) /\
  length (warnings (events_of (receiveAmid id err msgs) w)) <= length msgs /\
  logs (events_of (receiveAmid id err msgs) w) =
    warnings (events_of (receiveAmid id err msgs) w) /\
  destroyCalls (events_of (receiveAmid id err msgs) w) = [] /\
  manager (snd (receiveAmid id err msgs w)) = manager w /\
  store (snd (receiveAmid id err msgs w)) = store w /\
  (forall plain,
      handleCalls (events_of (receive id err plain) w) = map (pair id) plain /\
      length (warnings (events_of (receive id err plain) w)) =
        length (refusedMessages id plain)).
Proof.
  destruct (receiveAmid_trace id err msgs w)
    as (evs & Htr & Hm & Hs & Hh & Hl & Hw & Hd & _).
  unfold events_of at 1 2 3 4 5. rewrite Htr, skipn_length_app.
  repeat (split; [assumption|]).
  intros plain.
  destruct (receiveAmid_trace id err (map (fun msg => (msg, None)) plain) w)
    as (evs' & Htr' & _ & _ & Hh' & _ & _ & _ & Hq').
  rewrite receive_quiet in Htr'. unfold events_of. rewrite Htr', skipn_length_app.
  assert (Hplain : map fst (map (fun msg : DataChannelMessage =>
                                   (msg, @None (option error))) plain) = plain)
    by (clear; induction plain as [|x l IH]; cbn; [reflexivity|now rewrite IH]).
  rewrite Hplain in Hh', Hq'.
  split; [exact Hh'|]. apply Hq'.
  clear. induction plain as [|x l IH]; constructor; [reflexivity|exact IH].
Qed.

(** X13: of the four callbacks, only the state callback ever destroys a
    session: when firing a callback leads to a [Destroy] call, the callback
    is the state callback of some viewer, the state is one of connected,
    disconnected, failed and closed, and the one session destroyed is that
    viewer's. *)
Theorem only_state_callback_destroys (cb : Callback) (arg : Fired) (w : World) :
  destroyCalls (events_of (fire cb arg) w) <> [] ->
  exists id session err st,
    cb = ConnectionStateCallback id session err /\
    arg = FiredState st /\
    (isTerminal st = true \/ isConnected st = true) /\
    destroyCalls (events_of (fire cb arg) w) = [id].
Proof.
  destruct w as [m s0 tr vars n].
  destruct cb as [id err| |id session err|session], arg as [msg|ist|st|i];
    cbn [fire];
    try (unfold events_of, ret; cbn [snd trace]; rewrite skipn_all;
         intros H; now elim H).
  - go_run. rewrite assigned_same.
    destruct (handle id msg); cbv beta iota zeta delta [fst snd];
      go_trace; intros H; now elim H.
  - go_run. go_trace. intros H; now elim H.
  - intros H. exists id, session, err, st.
    split; [reflexivity|]. split; [reflexivity|].
    revert H. destruct st; go_run;
      try (rewrite skipn_all; intros H; now elim H).
    + destruct (SetConnected session true s0) as [s1 [e|]];
        cbv beta iota zeta delta [fst snd]; rewrite assigned_same.
      * destruct (Destroy id s1) as [s2 r]. go_trace. intros _. cbn. auto.
      * go_trace. intros H; now elim H.
    + destruct (Destroy id s0) as [s1 r]. go_trace. intros _. cbn. auto.
    + destruct (Destroy id s0) as [s1 r]. go_trace. intros _. cbn. auto.
    + destruct (Destroy id s0) as [s1 r]. go_trace. intros _. cbn. auto.
  - go_run. destruct i as [c|]; [destruct (json_Marshal (ToJSON c)) as [text|e]|];
      cbv beta iota zeta delta [fst snd].
    + destruct (SignalCandidate session text s0) as [s1 [e|]];
        cbv beta iota zeta delta [fst snd]; go_trace; intros H; now elim H.
    + go_trace. intros H; now elim H.
    + go_trace. intros H; now elim H.
Qed.

(** ** The drain loop, further *)

Lemma rtcpDrain_keeps_reading (sender : RTPSender) (fuel : nat) :
  forall k0 w,
    (forall j, j < fuel -> readErr (Read sender (k0 + j) (length rtcpBuf)) = None) ->
    rtcpDrain fuel sender k0 w =
      (None,
       {| manager := manager w; store := store w;
          trace := trace w ++ repeat (EvRead sender (length rtcpBuf)) fuel;
          captured := captured w; declared := declared w |}).
Proof.
  induction fuel as [|fuel IH]; intros k0 w Hbefore.
  - destruct w as [m st tr vars n]. cbn. now rewrite app_nil_r.
  - cbn [rtcpDrain]. cbv beta iota zeta delta [bind ask emit ret].
    pose proof (Hbefore 0 ltac:(lia)) as H0. rewrite Nat.add_0_r in H0. rewrite H0.
    rewrite (IH (S k0)); cbn [manager store trace].
    + rewrite <- app_assoc. reflexivity.
    + intros j Hj. replace (S k0 + j) with (k0 + S j) by lia. apply Hbefore. lia.
Qed.

Lemma rtcpDrain_world (sender : RTPSender) (fuel : nat) :
  forall k0 w,
    manager (snd (rtcpDrain fuel sender k0 w)) = manager w /\
    store (snd (rtcpDrain fuel sender k0 w)) = store w.
Proof.
  induction fuel as [|fuel IH]; intros k0 w; [split; reflexivity|].
  cbn [rtcpDrain]. cbv beta iota zeta delta [bind ask emit ret].
  destruct (readErr (Read sender k0 (length rtcpBuf))).
  - split; reflexivity.
  - destruct (IH (S k0) {| manager := manager w; store := store w;
                           trace := trace w ++ [EvRead sender (length rtcpBuf)];
          captured := captured w; declared := declared w |})
      as [Hm Hs].
    split; [exact Hm|exact Hs].
Qed.

(** Among the first reads either all succeed or one fails. *)
Lemma reads_before (sender : RTPSender) (fuel : nat) :
  (forall j, j < fuel -> readErr (Read sender j (length rtcpBuf)) = None) \/
  (exists k, k < fuel /\ readErr (Read sender k (length rtcpBuf)) <> None).
Proof.
  induction fuel as [|fuel [Hall|(k & Hk & Hfail)]].
  - left. intros j Hj. lia.
  - destruct (readErr (Read sender fuel (length rtcpBuf))) as [e|] eqn:E.
    + right. exists fuel. split; [lia|]. rewrite E. discriminate.
    + left. intros j Hj. destruct (Nat.eq_dec j fuel) as [->|Hne]; [exact E|].
      apply Hall. lia.
  - right. exists k. split; [lia|exact Hfail].
Qed.

(** X14: a failed read is the only way out of the drain loop.  Within
    [fuel] iterations the loop has returned exactly when one of its first
    [fuel] reads fails; as long as they all succeed it has made [fuel] reads
    into its 1500-byte buffer and is still reading.  It never touches the
    manager or the sessions. *)
Theorem rtcpDrain_returns_iff_read_failed
    (sender : RTPSender) (fuel : nat) (w : World) :
  (fst (rtcpDrain fuel sender 0 w) = Some tt <->
   exists k, k < fuel /\ readErr (Read sender k (length rtcpBuf)) <> None) /\
  ((forall k, k < fuel -> readErr (Read sender k (length rtcpBuf)) = None) ->
   fst (rtcpDrain fuel sender 0 w) = None /\
   events_of (rtcpDrain fuel sender 0) w = repeat (EvRead sender 1500) fuel) /\
  manager (snd (rtcpDrain fuel sender 0 w)) = manager w /\
  store (snd (rtcpDrain fuel sender 0 w)) = store w.
Proof.
  split; [|split; [|apply rtcpDrain_world]].
  - split.
    + intros Hret. destruct (reads_before sender fuel) as [Hall|Hsome]; [|exact Hsome].
      rewrite (rtcpDrain_keeps_reading sender fuel 0 w Hall) in Hret. discriminate.
    + intros (k & Hk & Hfail).
      destruct (first_failed_read sender (length rtcpBuf) k 0 Hfail)
        as (d & Hd & Hfirst & Hbefore).
      cbn [Nat.add] in Hfirst, Hbefore.
      rewrite (rtcpDrain_returns sender d 0 w fuel Hbefore Hfirst ltac:(lia)).
      reflexivity.
  - intros Hall. unfold events_of.
    rewrite (rtcpDrain_keeps_reading sender fuel 0 w Hall).
    cbn [fst snd trace]. rewrite skipn_length_app, rtcpBuf_length. split; reflexivity.
Qed.

(** ** Shutdown and New *)

(** [CreatePeer] reads the manager, the sessions and the number of [err]
    variables declared, not the trace. *)
Lemma CreatePeer_ignores_trace
    (id : string) (session : Session) (m : WebRTCManager) (st : Store)
    (vars : ErrVar -> option error) (n : nat) (tr tr' : list Event) :
  let w := {| manager := m; store := st; trace := tr;
              captured := vars; declared := n |} in
  let w' := {| manager := m; store := st; trace := tr';
               captured := vars; declared := n |} in
  fst (CreatePeer id session w') = fst (CreatePeer id session w) /\
  events_of (CreatePeer id session) w' = events_of (CreatePeer id session) w /\
  store (snd (CreatePeer id session w')) = store (snd (CreatePeer id session w)).
Proof.
  go_run. repeat oracle; go_trace; repeat split.
Qed.

(** X15: [Shutdown] returns nil after one info log and releases nothing:
    the manager with its tracks and the sessions are as before, and a
    [CreatePeer] after it returns what it would have returned before it,
    with the same calls and the same effect on the sessions. *)
Theorem Shutdown_releases_nothing (id : string) (session : Session) (w : World) :
  fst (Shutdown w) = None /\
  events_of Shutdown w = [EvLog InfoLevel [] None "webrtc shutting down"] /\
  manager (snd (Shutdown w)) = manager w /\
  store (snd (Shutdown w)) = store w /\
  fst (CreatePeer id session (snd (Shutdown w))) = fst (CreatePeer id session w) /\
  events_of (CreatePeer id session) (snd (Shutdown w)) =
    events_of (CreatePeer id session) w /\
  store (snd (CreatePeer id session (snd (Shutdown w)))) =
    store (snd (CreatePeer id session w)).
Proof.
  destruct w as [m st tr vars n].
  destruct (CreatePeer_ignores_trace id session m st vars n tr
              (tr ++ [EvLog InfoLevel [] None "webrtc shutting down"]))
    as (Hres & Hevs & Hstore).
  unfold Shutdown, log, emit, bind, ret, events_of at 1.
  cbn [fst snd manager store trace captured declared].
  rewrite skipn_length_app. repeat (split; [reflexivity|]).
  split; [exact Hres|]. split; [exact Hevs|exact Hstore].
Qed.

(** X16: [CreatePeer] does not check that [Start] has run.  On a manager
    fresh from [New] it never succeeds: either one of the steps up to the
    data channel fails and its error is returned, or the call panics in
    [AddTrack] on the nil video track, with the connection built and the
    message and ICE state callbacks registered on it.  The engine handed to
    [RegisterDefaultInterceptors] holds two zero-valued codecs, and no peer
    reaches the session. *)
Theorem CreatePeer_before_Start
    (cfg : WebRTCConfig) (st : Store) (tr : list Event)
    (vars : ErrVar -> option error) (n : nat)
    (id : string) (session : Session) :
  let w := {| manager := New cfg; store := st; trace := tr;
              captured := vars; declared := n |} in
  (forall r, fst (CreatePeer id session w) = Returned r ->
             errOf r <> None /\ offerOf r = "") /\
  (forall c,
      interceptorsError (New cfg) = None ->
      NewPeerConnection (apiFor (New cfg)) (configurationFor cfg) = Ok c ->
      CreateDataChannel c "data" dataChannelInit = None ->
      fst (CreatePeer id session w) = Panicked /\
      addTrackCalls (events_of (CreatePeer id session) w) = [(c, None)] /\
      registrations (events_of (CreatePeer id session) w) =
        [(c, DataChannelCallback id n); (c, ICEConnectionStateCallback)]) /\
  (forall engine i,
      In (engine, i) (interceptorCalls (events_of (CreatePeer id session) w)) ->
      engine = [(zeroCodec, RTPCodecTypeAudio); (zeroCodec, RTPCodecTypeVideo)] /\
      i = emptyRegistry) /\
  setPeerCalls (events_of (CreatePeer id session) w) = [] /\
  store (snd (CreatePeer id session w)) = st.
Proof.
  intros w.
  pose proof (proj1 (CreatePeer_any_calls id session w)) as Hengine.
  split; [|split; [|split; [exact Hengine|]]]; subst w.
  - go_run. cbn [New videoTrack config].
    repeat oracle; returned; split; first [discriminate | reflexivity].
  - intros c H1 H2 H3. go_run. cbn [New videoTrack config] in *.
    rewrite H1. cbv beta iota zeta. rewrite H2. cbv beta iota zeta.
    rewrite H3. cbv beta iota zeta. go_trace. repeat split.
  - go_run. cbn [New videoTrack config].
    repeat oracle; go_trace; split; reflexivity.
Qed.

End Properties.

(** * The scenario, run *)

(** The scenario's engine and registry meet what the proofs ask. *)

Lemma scenario_offers_are_not_empty :
  @offers_are_not_empty (engine smooth).
Proof. intros c d H. inversion H; subst. discriminate. Qed.

Lemma scenario_refused_peer_is_not_attached (sc : Script) :
  @refused_peer_is_not_attached (engine sc) (registry sc).
Proof.
  intros session peer st Hrefused s. cbn in *.
  destruct (String.eqb session "closed"); [reflexivity|].
  now elim Hrefused.
Qed.

Lemma scenario_json_carries_address (sc : Script) :
  @json_carries_address (engine sc).
Proof.
  intros c text. cbn. unfold candidateText, marshalText. cbn [Candidate].
  destruct (String.eqb c "") eqn:E.
  - cbn. discriminate.
  - intros H. cbn in H. inversion H as [Htext]. clear H Htext.
    repeat apply contains_cons.
    rewrite append_assoc. apply contains_here.
Qed.

(** C1 as written fails: with ICE-lite on and two servers configured, the
    connection is built with the empty list and the call returns the two
    configured servers. *)
Lemma CreatePeer_returns_servers_not_applied :
  exists applied r,
    appliedICEServers
      (eventsIn smooth (CreatePeerIn smooth "viewer-1" "viewer-1") (started smooth true))
      = [applied] /\
    fst (CreatePeerIn smooth "viewer-1" "viewer-1" (started smooth true)) = Returned r /\
    serversOf r <> applied.
Proof.
  exists [], ("v=0", true, [stun; turn], None).
  split; [vm_compute; reflexivity|]. split; [vm_compute; reflexivity|].
  vm_compute. discriminate.
Qed.

Lemma CreatePeer_ice_lite_witness :
  fst (CreatePeerIn smooth "viewer-1" "viewer-1" (started smooth true))
    = Returned ("v=0", true, [stun; turn], None) /\
  appliedICEServers
    (eventsIn smooth (CreatePeerIn smooth "viewer-1" "viewer-1") (started smooth true))
    = [[]] /\
  serversOf ("v=0", true, [stun; turn], @None error) = [stun; turn].
Proof.
  assert (Hrun : fst (CreatePeerIn smooth "viewer-1" "viewer-1" (started smooth true))
                 = Returned ("v=0", true, [stun; turn], None))
    by (vm_compute; reflexivity).
  destruct (@CreatePeer_ice_lite (engine smooth) (registry smooth)
              "viewer-1" "viewer-1" (started smooth true) eq_refl)
    as (_ & _ & Hreturned).
  destruct (Hreturned ("v=0", true, [stun; turn], None) Hrun)
    as (Happlied & _ & Hservers).
  split; [exact Hrun|]. split; [apply Happlied; reflexivity|exact Hservers].
Defined.

(** C2 as written fails: the error for a name outside the table reads
    unknown codec, not unsupported codec. *)
Lemma createTrack_unknown_name_error_text :
  exists err,
    snd (@createTrack (engine smooth) "XYZ") = Some err /\
    Error err = "unknown codec XYZ" /\
    saysUnsupportedCodec err = false.
Proof. eexists. split; [reflexivity|]. split; reflexivity. Qed.

Lemma createTrack_codec_table_witness :
  (exists codec,
      wireParameters codec = ("video/VP8", 90000, 0, "", 96)%Z /\
      @createTrack (engine smooth) "VP8" =
        (Some (MimeType (Capability codec)), codec, None)) /\
  @createTrack (engine smooth) "XYZ" =
    (None, zeroCodec, Some (errorString "unknown codec XYZ")).
Proof.
  split.
  - destruct (proj1 (@createTrack_codec_table (engine smooth) "VP8")
                ("video/VP8", 90000, 0, "", 96)%Z (or_introl eq_refl))
      as (codec & Hrow & _ & Hrun).
    exists codec. split; [exact Hrow|exact Hrun].
  - apply (proj2 (@createTrack_codec_table (engine smooth) "XYZ")).
    cbn. intros H. repeat (destruct H as [H|H]; [discriminate H|]). exact H.
Defined.

Lemma CreatePeer_success_offer_witness :
  fst (CreatePeerIn smooth "viewer-1" "viewer-1" (started smooth false))
    = Returned ("v=0", false, [stun; turn], None) /\
  offerOf ("v=0", false, [stun; turn], @None error) <> "" /\
  exists peer,
    setPeerCalls
      (eventsIn smooth (CreatePeerIn smooth "viewer-1" "viewer-1") (started smooth false))
      = [("viewer-1", peer)] /\
    peerId peer = "viewer-1".
Proof.
  assert (Hrun : fst (CreatePeerIn smooth "viewer-1" "viewer-1" (started smooth false))
                 = Returned ("v=0", false, [stun; turn], None))
    by (vm_compute; reflexivity).
  destruct (@CreatePeer_success_offer (engine smooth) (registry smooth)
              "viewer-1" "viewer-1" (started smooth false)
              scenario_offers_are_not_empty
              ("v=0", false, [stun; turn], None) Hrun eq_refl)
    as (Hoffer & Hpeer & _).
  split; [exact Hrun|]. split; [exact Hoffer|exact Hpeer].
Defined.

Lemma terminal_state_destroys_once_witness :
  destroyCalls
    (eventsIn smooth
       (@onConnectionStateChange (engine smooth) (registry smooth)
          "viewer-1" "viewer-1" 0 PeerConnectionStateClosed)
       (started smooth false))
    = ["viewer-1"].
Proof.
  apply (@terminal_state_destroys_once (engine smooth) (registry smooth)).
  right. right. reflexivity.
Defined.

Lemma connected_state_marks_or_destroys_witness :
  destroyCalls
    (eventsIn smooth
       (@onConnectionStateChange (engine smooth) (registry smooth)
          "viewer-1" "viewer-1" 0 PeerConnectionStateConnected)
       (started smooth false))
    = [] /\
  destroyCalls
    (eventsIn smooth
       (@onConnectionStateChange (engine smooth) (registry smooth)
          "ghost" "ghost" 0 PeerConnectionStateConnected)
       (started smooth false))
    = ["ghost"].
Proof.
  split.
  - apply (@connected_state_marks_or_destroys (engine smooth) (registry smooth)
             "viewer-1" "viewer-1" 0 (started smooth false)).
    reflexivity.
  - apply (@connected_state_marks_or_destroys (engine smooth) (registry smooth)
             "ghost" "ghost" 0 (started smooth false)).
    cbn. discriminate.
Defined.

(** C5: the connected case when the two closures of one call meet on
    [err].  [CreatePeer] for viewer-1 registers the message closure and
    the state closure on the same [err].  The state closure is fired with
    connected and [SetConnected(true)] succeeds; before it tests [err], a
    message of the viewer is handled and [handle] fails: the state closure
    then logs that it could not set the peer connected and destroys the
    session, which loses its peer.  The other way round, for the session
    that cannot be marked connected, a message handled without error in
    between leaves [err] nil and the session is not destroyed. *)
Theorem connected_state_race_with_message :
  let w1 := snd (CreatePeerIn smooth "viewer-1" "viewer-1" (started smooth false)) in
  let w2 := snd (CreatePeerIn smooth "ghost" "ghost" (started smooth false)) in
  (registrations
     (eventsIn smooth (CreatePeerIn smooth "viewer-1" "viewer-1") (started smooth false))
   = [(7, DataChannelCallback "viewer-1" 0);
      (7, ICEConnectionStateCallback);
      (7, @ConnectionStateCallback (engine smooth) (registry smooth)
            "viewer-1" "viewer-1" 0);
      (7, @ICECandidateCallback (engine smooth) (registry smooth) "viewer-1")]) /\
  (snd (@SetConnected (engine smooth) (registry smooth) "viewer-1" true (store w1))
   = None /\
   @handle (engine smooth) (producer smooth) "viewer-1" ""
   = Some (errorString "empty message") /\
   destroyCalls
     (eventsIn smooth
        (@connectedAmid (engine smooth) (producer smooth) (registry smooth)
           "viewer-1" "viewer-1" 0 "") w1)
   = ["viewer-1"] /\
   warnings
     (eventsIn smooth
        (@connectedAmid (engine smooth) (producer smooth) (registry smooth)
           "viewer-1" "viewer-1" 0 "") w1)
   = ["data handle failed"; "unable to set connected on peer"] /\
   @AttachedPeer (engine smooth) (registry smooth) (store w1) "viewer-1" <> None /\
   @AttachedPeer (engine smooth) (registry smooth)
     (store (snd (@connectedAmid (engine smooth) (producer smooth) (registry smooth)
                    "viewer-1" "viewer-1" 0 "" w1))) "viewer-1"
   = None) /\
  (snd (@SetConnected (engine smooth) (registry smooth) "ghost" true (store w2))
   = Some (errorString "no such session") /\
   @handle (engine smooth) (producer smooth) "ghost" "move" = None /\
   destroyCalls
     (eventsIn smooth
        (@connectedAmid (engine smooth) (producer smooth) (registry smooth)
           "ghost" "ghost" 0 "move") w2)
   = []).
Proof.
  intros w1 w2. split; [vm_compute; reflexivity|]. split.
  - split; [vm_compute; reflexivity|]. split; [vm_compute; reflexivity|].
    split; [vm_compute; reflexivity|]. split; [vm_compute; reflexivity|].
    split; [vm_compute; discriminate|vm_compute; reflexivity].
  - split; [vm_compute; reflexivity|]. split; vm_compute; reflexivity.
Qed.

Lemma CreatePeer_failure_witness :
  fst (CreatePeerIn smooth "viewer-2" "closed" (started smooth false))
    = Returned ("", false, [stun; turn], Some (errorString "session closed")) /\
  (forall s,
      @AttachedPeer _ (registry smooth)
        (store (snd (CreatePeerIn smooth "viewer-2" "closed" (started smooth false)))) s
      = None) /\
  fst (CreatePeerIn (failing StepAudioTrack) "viewer-1" "viewer-1"
         (started (failing StepAudioTrack) false))
    = Returned ("", false, [stun; turn], Some (errorString "boom")) /\
  setPeerCalls
    (eventsIn (failing StepAudioTrack)
       (CreatePeerIn (failing StepAudioTrack) "viewer-1" "viewer-1")
       (started (failing StepAudioTrack) false))
    = [].
Proof.
  assert (H1 : @FailsAt (engine smooth) (registry smooth) "viewer-2" "closed"
                 (started smooth false) StepSetPeer (errorString "session closed"))
    by (eapply FailsSetPeer; reflexivity).
  assert (H2 : @FailsAt (engine (failing StepAudioTrack))
                 (registry (failing StepAudioTrack)) "viewer-1" "viewer-1"
                 (started (failing StepAudioTrack) false) StepAudioTrack
                 (errorString "boom"))
    by (eapply FailsAudioTrack; reflexivity).
  destruct (@CreatePeer_failure _ _ _ _ _ _ _
              (scenario_refused_peer_is_not_attached smooth) H1)
    as (Herr & Hkeep & _).
  destruct (@CreatePeer_failure _ _ _ _ _ _ _
              (scenario_refused_peer_is_not_attached (failing StepAudioTrack)) H2)
    as (Herr' & _ & Hnone & _).
  split; [exact Herr|]. split; [exact Hkeep|]. split; [exact Herr'|].
  apply Hnone. discriminate.
Defined.

Lemma frame_consumer_write_failures_witness :
  let w := started smooth false in
  let closedPipe := {| Data := [1; 2; 3]%Z; Duration := 1 |} in
  let shortWrite := {| Data := [1; 2; 3]%Z; Duration := 2 |} in
  Started w /\
  (exists t,
      writeSampleCalls
        (eventsIn smooth (@audioFrameConsumer (engine smooth) (registry smooth) closedPipe) w)
        = [(t, closedPipe)] /\
      logs (eventsIn smooth
              (@audioFrameConsumer (engine smooth) (registry smooth) closedPipe) w) = []) /\
  (exists t,
      writeSampleCalls
        (eventsIn smooth (@videoFrameConsumer (engine smooth) (registry smooth) shortWrite) w)
        = [(t, shortWrite)] /\
      length (warnings (eventsIn smooth
                (@videoFrameConsumer (engine smooth) (registry smooth) shortWrite) w)) = 1).
Proof.
  intros w closedPipe shortWrite.
  assert (Hstarted : @Started (engine smooth) (registry smooth) w)
    by (split; vm_compute; discriminate).
  split; [exact Hstarted|]. split.
  - destruct (@frame_consumer_write_failures (engine smooth) (registry smooth)
                _ closedPipe w (or_introl (conj eq_refl (proj1 Hstarted))))
      as (_ & _ & _ & (t & Hwrite & Hclosed & _) & _).
    exists t. split; [exact Hwrite|].
    apply Hclosed. revert Hwrite. vm_compute. intros H. inversion H. reflexivity.
  - destruct (@frame_consumer_write_failures (engine smooth) (registry smooth)
                _ shortWrite w (or_intror (conj eq_refl (proj2 Hstarted))))
      as (_ & _ & _ & (t & Hwrite & _ & Hother & _) & _).
    exists t. split; [exact Hwrite|].
    apply (Hother (errorString "short write")).
    + revert Hwrite. vm_compute. intros H. inversion H. reflexivity.
    + discriminate.
Defined.

Lemma candidate_signalling_witness :
  let w := started smooth false in
  (exists text,
      signalCandidateCalls
        (eventsIn smooth
           (@onICECandidate (engine smooth) (registry smooth) "viewer-1" (Some "10.0.0.5")) w)
        = [("viewer-1", text)] /\
      contains "10.0.0.5" text = true) /\
  signalCandidateCalls
    (eventsIn smooth
       (@trickle (engine smooth) (registry smooth) "viewer-1"
          [Some "10.0.0.5"; Some ""; Some "10.0.0.6"; None]) w)
    = [("viewer-1", marshalText (@ToJSON (engine smooth) "10.0.0.5"));
       ("viewer-1", marshalText (@ToJSON (engine smooth) "10.0.0.6"))].
Proof.
  intros w.
  destruct (@candidate_signalling (engine smooth) (registry smooth) "viewer-1" w
              (scenario_json_carries_address smooth))
    as (Hok & _ & _ & Hrun).
  split.
  - exists (marshalText (@ToJSON (engine smooth) "10.0.0.5")).
    destruct (Hok "10.0.0.5" _ eq_refl) as (Hcall & Haddr & _).
    split; [exact Hcall|exact Haddr].
  - exact (Hrun [Some "10.0.0.5"; Some ""; Some "10.0.0.6"; None]).
Defined.

Lemma rtcpDrain_returns_at_first_failed_read_witness :
  let w := started smooth false in
  (exists n, readErr (@Read (engine smooth) "video/VP8" n (length rtcpBuf)) <> None) /\
  exists k,
    (forall fuel,
        k < fuel ->
        fst (@rtcpDrain (engine smooth) (registry smooth) fuel "video/VP8" 0 w)
          = Some tt /\
        eventsIn smooth (@rtcpDrain (engine smooth) (registry smooth) fuel "video/VP8" 0) w
          = repeat (@EvRead (engine smooth) (registry smooth) "video/VP8" 1500) (S k)) /\
    (forall fuel,
        fuel <= k ->
        fst (@rtcpDrain (engine smooth) (registry smooth) fuel "video/VP8" 0 w) = None).
Proof.
  intros w.
  assert (Hfails : exists n,
             readErr (@Read (engine smooth) "video/VP8" n (length rtcpBuf)) <> None)
    by (exists 3; cbn; discriminate).
  split; [exact Hfails|].
  destruct (@rtcpDrain_returns_at_first_failed_read (engine smooth) (registry smooth)
              "video/VP8" w Hfails)
    as (_ & _ & k & _ & _ & Hreturns & Hbefore).
  exists k. split; [|exact Hbefore].
  intros fuel Hfuel. destruct (Hreturns fuel Hfuel) as (Hret & _ & _ & Hevs & _).
  split; [exact Hret|exact Hevs].
Defined.

Lemma CreatePeer_error_result_witness :
  let w := started (failing StepOffer) true in
  fst (CreatePeerIn (failing StepOffer) "viewer-1" "viewer-1" w)
    = Returned ("", true, [stun; turn], Some (errorString "boom")) /\
  offerOf ("", true, [stun; turn], Some (errorString "boom")) = "" /\
  liteOf ("", true, [stun; turn], Some (errorString "boom")) = true /\
  serversOf ("", true, [stun; turn], Some (errorString "boom")) = [stun; turn].
Proof.
  intros w. split; [reflexivity|].
  destruct (@CreatePeer_error_result (engine (failing StepOffer))
              (registry (failing StepOffer)) "viewer-1" "viewer-1" w
              ("", true, [stun; turn], Some (errorString "boom")) eq_refl)
    as (Hoffer & Hlite & Hservers & _).
  - discriminate.
  - split; [exact Hoffer|]. split; [exact Hlite|exact Hservers].
Defined.

(** ** The further properties, run *)

Lemma createTrack_track_iff_no_error_witness :
  fst (fst (@createTrack (engine smooth) "Opus")) = Some "audio/opus" /\
  @NewTrackLocalStaticSample (engine smooth)
    (Capability (snd (fst (@createTrack (engine smooth) "Opus")))) "stream" "stream"
    = Ok "audio/opus".
Proof.
  split; [reflexivity|].
  apply (proj1 (proj2 (@createTrack_track_iff_no_error (engine smooth) "Opus"))).
  reflexivity.
Defined.

Lemma payload_type_identifies_codec_witness :
  exists c1 c2,
    codecByName "PCMU" = Some c1 /\ codecByName "PCMU" = Some c2 /\
    (0 <= PayloadType c1 < 128)%Z /\ c1 = c2.
Proof.
  eexists. eexists. split; [reflexivity|]. split; [reflexivity|].
  destruct (payload_type_identifies_codec "PCMU" "PCMU" _ _ eq_refl eq_refl)
    as [Hbound Hsame].
  split; [exact Hbound|]. apply Hsame. left. reflexivity.
Defined.

Lemma Start_panics_on_track_failure_witness :
  fst (@Start (engine smooth) (strayProducer smooth) (registry smooth)
         (boot smooth false)) = Panicked /\
  eventsIn smooth (@Start (engine smooth) (strayProducer smooth) (registry smooth))
    (boot smooth false)
    = [EvLog PanicLevel [] (Some (errorString "unknown codec MP3"))
         "unable to create audio track"].
Proof.
  destruct (proj1 (proj2 (@Start_panics_on_track_failure
                            (engine smooth) (strayProducer smooth) (registry smooth)
                            (boot smooth false)))
              (errorString "unknown codec MP3") eq_refl)
    as (Hpanic & Hevs & _).
  split; [exact Hpanic|exact Hevs].
Defined.

Lemma Start_success_witness :
  exists ca cv,
    wireParameters ca = ("audio/opus", 48000, 2, "", 111)%Z /\
    wireParameters cv = ("video/VP8", 90000, 0, "", 96)%Z /\
    audioCodec (manager (started smooth false)) = ca /\
    videoCodec (manager (started smooth false)) = cv /\
    consumersRegistered
      (eventsIn smooth (@Start (engine smooth) (producer smooth) (registry smooth))
         (boot smooth false))
      = [EvOnAudioFrame; EvOnVideoFrame].
Proof.
  destruct (@Start_success (engine smooth) (producer smooth) (registry smooth)
              (boot smooth false) eq_refl)
    as (ca & cv & ta & tv & _ & _ & _ & _ & Hm & _ & Hreg & _).
  exists ca, cv. unfold started. rewrite Hm. cbn [audioCodec videoCodec].
  assert (Hca : ca = audioCodec (manager (started smooth false)))
    by (unfold started; now rewrite Hm).
  assert (Hcv : cv = videoCodec (manager (started smooth false)))
    by (unfold started; now rewrite Hm).
  split; [rewrite Hca; reflexivity|]. split; [rewrite Hcv; reflexivity|].
  split; [reflexivity|]. split; [reflexivity|exact Hreg].
Defined.

Lemma started_manager_feeds_every_peer_witness :
  let sample := {| Data := [7]%Z; Duration := 0 |} in
  exists ca cv ta tv,
    (forall engine i,
        In (engine, i)
          (interceptorCalls
             (eventsIn smooth (CreatePeerIn smooth "viewer-1" "viewer-1")
                (started smooth false))) ->
        engine = [(ca, RTPCodecTypeAudio); (cv, RTPCodecTypeVideo)] /\ i = []) /\
    (forall c t,
        In (c, t)
          (addTrackCalls
             (eventsIn smooth (CreatePeerIn smooth "viewer-1" "viewer-1")
                (started smooth false))) ->
        t = Some tv \/ t = Some ta) /\
    writeSampleCalls
      (eventsIn smooth (@audioFrameConsumer (engine smooth) (registry smooth) sample)
         (started smooth false))
      = [(ta, sample)].
Proof.
  intros sample.
  destruct (@started_manager_feeds_every_peer (engine smooth) (producer smooth)
              (registry smooth) "viewer-1" "viewer-1" sample (boot smooth false) eq_refl)
    as (ca & cv & ta & tv & _ & _ & Hengine & _ & Htracks & Haudio & _).
  exists ca, cv, ta, tv. split; [exact Hengine|]. split; [exact Htracks|exact Haudio].
Defined.

Lemma CreatePeer_full_ice_witness :
  fst (CreatePeerIn smooth "viewer-1" "viewer-1" (started smooth false))
    = Returned ("v=0", false, [stun; turn], None) /\
  appliedICEServers
    (eventsIn smooth (CreatePeerIn smooth "viewer-1" "viewer-1") (started smooth false))
    = [[stun; turn]] /\
  liteOf ("v=0", false, [stun; turn], @None error) = false.
Proof.
  assert (Hrun : fst (CreatePeerIn smooth "viewer-1" "viewer-1" (started smooth false))
                 = Returned ("v=0", false, [stun; turn], None))
    by (vm_compute; reflexivity).
  destruct (proj2 (@CreatePeer_full_ice (engine smooth) (registry smooth)
                     "viewer-1" "viewer-1" (started smooth false)) eq_refl)
    as (_ & Hreturned).
  destruct (Hreturned ("v=0", false, [stun; turn], None) Hrun)
    as (Happlied & Hlite).
  split; [exact Hrun|]. split; [exact (Happlied eq_refl)|exact Hlite].
Defined.

Lemma CreatePeer_success_wiring_witness :
  fst (CreatePeerIn smooth "viewer-1" "viewer-1" (started smooth false))
    = Returned ("v=0", false, [stun; turn], None) /\
  exists c peer,
    addTrackCalls
      (eventsIn smooth (CreatePeerIn smooth "viewer-1" "viewer-1") (started smooth false))
      = [(c, Some "video/VP8"); (c, Some "audio/opus")] /\
    registrations
      (eventsIn smooth (CreatePeerIn smooth "viewer-1" "viewer-1") (started smooth false))
      = [(c, DataChannelCallback "viewer-1" 0);
         (c, ICEConnectionStateCallback);
         (c, @ConnectionStateCallback (engine smooth) (registry smooth)
               "viewer-1" "viewer-1" 0);
         (c, @ICECandidateCallback (engine smooth) (registry smooth) "viewer-1")] /\
    setPeerCalls
      (eventsIn smooth (CreatePeerIn smooth "viewer-1" "viewer-1") (started smooth false))
      = [("viewer-1", peer)] /\
    peerConnection peer = c /\
    peerId peer = "viewer-1".
Proof.
  assert (Hrun : fst (CreatePeerIn smooth "viewer-1" "viewer-1" (started smooth false))
                 = Returned ("v=0", false, [stun; turn], None))
    by (vm_compute; reflexivity).
  destruct (@CreatePeer_success_wiring (engine smooth) (registry smooth)
              "viewer-1" "viewer-1" (started smooth false)
              ("v=0", false, [stun; turn], None) Hrun eq_refl)
    as (c & d & peer & cfg & _ & _ & _ & _ & _ & Htracks & _ & _ & _ & Hreg
        & Hpeer & Hid & Hc & _).
  split; [exact Hrun|]. exists c, peer. split; [exact Htracks|]. split; [exact Hreg|].
  split; [exact Hpeer|]. split; [exact Hc|exact Hid].
Defined.

Lemma CreatePeer_succeeds_iff_no_step_fails_witness :
  (exists r,
      fst (CreatePeerIn smooth "viewer-1" "viewer-1" (started smooth false))
        = Returned r /\ errOf r = None) /\
  ~ @FailsAt (engine smooth) (registry smooth) "viewer-1" "viewer-1"
      (started smooth false) StepOffer (errorString "boom") /\
  ~ @Started (engine smooth) (registry smooth) (fresh smooth false).
Proof.
  assert (Hok : exists r,
             fst (CreatePeerIn smooth "viewer-1" "viewer-1" (started smooth false))
               = Returned r /\ errOf r = None)
    by (exists ("v=0", false, [stun; turn], None); split; vm_compute; reflexivity).
  split; [exact Hok|]. split.
  - apply (proj1 (proj1 (proj1 (proj2 (@CreatePeer_succeeds_iff_no_step_fails
                         (engine smooth) (registry smooth)
                         "viewer-1" "viewer-1" (started smooth false)))) Hok)).
  - apply (proj2 (proj2 (@CreatePeer_succeeds_iff_no_step_fails
                           (engine smooth) (registry smooth)
                           "viewer-1" "viewer-1" (fresh smooth false)))).
    vm_compute. reflexivity.
Defined.

Lemma CreatePeer_twice_shares_tracks_witness :
  fst (CreatePeerIn smooth "viewer-2" "viewer-2"
         (snd (CreatePeerIn smooth "viewer-1" "viewer-1" (started smooth false))))
    = Returned ("v=0", false, [stun; turn], None) /\
  map snd
    (addTrackCalls
       (eventsIn smooth (CreatePeerIn smooth "viewer-2" "viewer-2")
          (snd (CreatePeerIn smooth "viewer-1" "viewer-1" (started smooth false)))))
  = [Some "video/VP8"; Some "audio/opus"].
Proof.
  assert (Hrun : fst (CreatePeerIn smooth "viewer-2" "viewer-2"
                        (snd (CreatePeerIn smooth "viewer-1" "viewer-1"
                                (started smooth false))))
                 = Returned ("v=0", false, [stun; turn], None))
    by (vm_compute; reflexivity).
  destruct (@CreatePeer_twice_shares_tracks (engine smooth) (registry smooth)
              "viewer-1" "viewer-2" "viewer-1" "viewer-2" (started smooth false)
              ("v=0", false, [stun; turn], None) ("v=0", false, [stun; turn], None)
              eq_refl eq_refl Hrun eq_refl)
    as (Hfirst & Hsecond & _).
  split; [exact Hrun|]. rewrite Hsecond. exact Hfirst.
Defined.

Lemma only_state_callback_destroys_witness :
  exists id,
    destroyCalls
      (eventsIn smooth
         (@fire (engine smooth) (producer smooth) (registry smooth)
            (@ConnectionStateCallback (engine smooth) (registry smooth)
               "viewer-1" "viewer-1" 0)
            (@FiredState (engine smooth) PeerConnectionStateClosed))
         (started smooth false))
      = [id].
Proof.
  destruct (@only_state_callback_destroys (engine smooth) (producer smooth)
              (registry smooth)
              (@ConnectionStateCallback (engine smooth) (registry smooth)
                 "viewer-1" "viewer-1" 0)
              (@FiredState (engine smooth) PeerConnectionStateClosed)
              (started smooth false))
    as (id & session & err & st & _ & _ & _ & Hdestroy).
  - vm_compute. discriminate.
  - exists id. exact Hdestroy.
Defined.

Lemma rtcpDrain_returns_iff_read_failed_witness :
  fst (@rtcpDrain (engine smooth) (registry smooth) 10 "audio/opus" 0
         (started smooth false)) = Some tt /\
  fst (@rtcpDrain (engine smooth) (registry smooth) 3 "audio/opus" 0
         (started smooth false)) = None.
Proof.
  split.
  - apply (proj1 (@rtcpDrain_returns_iff_read_failed (engine smooth) (registry smooth)
                    "audio/opus" 10 (started smooth false))).
    exists 3. split; [lia|]. cbn. discriminate.
  - apply (proj1 (proj2 (@rtcpDrain_returns_iff_read_failed
                           (engine smooth) (registry smooth)
                           "audio/opus" 3 (started smooth false)))).
    intros k Hk. cbn.
    destruct k as [|[|[|k]]]; [reflexivity|reflexivity|reflexivity|lia].
Defined.

Lemma CreatePeer_before_Start_witness :
  fst (CreatePeerIn smooth "viewer-1" "viewer-1" (fresh smooth false)) = Panicked /\
  addTrackCalls
    (eventsIn smooth (CreatePeerIn smooth "viewer-1" "viewer-1") (fresh smooth false))
    = [(7, None)].
Proof.
  destruct (proj1 (proj2 (@CreatePeer_before_Start (engine smooth) (registry smooth)
                            (settings false) (nobody smooth) [] (fun _ => None) 0
                            "viewer-1" "viewer-1"))
              7 eq_refl eq_refl eq_refl)
    as (Hpanic & Htracks & _).
  split; [exact Hpanic|exact Htracks].
Defined.
